(** * Tunnel simulation: the simulation and detection core of
      [tunnel_simulation.tsx], embedded in Rocq.

    JavaScript numbers are modelled as exact rationals ([Q]): sums, products
    and comparisons are the mathematical ones, rounding of doubles is left
    out of the model.  What is stated about numbers is stated so that it
    also holds when the sums and products are the rounded ones of the
    code (bounds that rounding can reach are not strict, repeated sums and
    products are left as repeated sums and products); [Binary64] computes
    the source's expressions on doubles where the two part.
    [Math.random()] and the wall clock are oracles: the k-th call
    returns the k-th value of a stream, and the state counts the calls made
    so far.  React state ([useState]) and refs ([useRef]) are the fields of
    one [State] record; the functional updaters queued by one callback are
    applied in the order in which they are queued, and the draws are
    consumed in that order.  Rendering and the scheduling of animation
    frames are outside the model: a frame is an event, like a click. *)

From Stdlib Require Import String QArith Qround Qminmax ZArith List Bool Lia Lqa.
From Stdlib Require Import DecimalString.
From Stdlib Require DecimalPos DecimalZ.
From Corelib Require PrimFloat.
Import ListNotations.

Set Warnings "-inexact-float".

Open Scope Q_scope.

(** ** JavaScript primitives *)

(** [a < b] on numbers. *)
Definition Qltb (a b : Q) : bool := negb (Qle_bool b a).

(** [a > b] on numbers. *)
Definition Qgtb (a b : Q) : bool := Qltb b a.

(** [Math.round]: nearest integer, ties towards plus infinity. *)
Definition Math_round (x : Q) : Z := Qfloor (x + 0.5).

(** Template-literal printing of an integer. *)
Definition showZ (z : Z) : string := NilZero.string_of_int (Z.to_int z).

(** [arr.length] as a number. *)
Definition arrayLength {A : Type} (arr : list A) : Q :=
  inject_Z (Z.of_nat (length arr)).

(** [arr[i]]: [None] is JavaScript's [undefined], the result of a read
    outside the array. *)
Definition arrayGet {A : Type} (arr : list A) (i : Z) : option A :=
  if (i <? 0)%Z then None else nth_error arr (Z.to_nat i).

(** [arr.slice(0, n)]. *)
Definition slice0 {A : Type} (n : nat) (arr : list A) : list A := firstn n arr.

(** ** Data model *)

Inductive VehicleType : Type := Car | Truck | Emergency.

Definition showVehicleType (t : VehicleType) : string :=
  match t with
  | Car => "car"
  | Truck => "truck"
  | Emergency => "emergency"
  end.

Definition isTruck (t : VehicleType) : bool :=
  match t with Truck => true | _ => false end.

Module Vehicle.
Record t : Type := mk {
  id : string;
  lane : Z;
  position : Q;
  speed : Q;
  type : VehicleType;
  color : string;
  temperature : Q;
  detected : bool
}.

(** [vehicle.detected = true] *)
Definition setDetected (v : t) : t :=
  mk (id v) (lane v) (position v) (speed v) (type v) (color v)
     (temperature v) true.
End Vehicle.

Inductive InsightType : Type := Info | Warning | Critical.

Module AIInsight.
Record t : Type := mk {
  id : string;
  timestamp : string;
  type : InsightType;
  message : string;
  zone : option string
}.
End AIInsight.

(** The component's state: the [useState] cells, the two refs the core
    reads, and the number of calls made so far to each oracle. *)
Record State : Type := mkState {
  isRunning : bool;
  vehicles : list Vehicle.t;
  simulationTime : Q;
  vehicleCount : Z;
  airQuality : Q;
  temperature : Q;
  visibility : Q;
  ventilationLevel : Q;
  activeCameraZone : Z;
  aiInsights : list AIInsight.t;
  incidentDetected : bool;
  lastSpawnTime : Q;
  vehicleIdCounter : Z;
  randomCalls : nat;
  clockCalls : nat
}.

(** The state of the first render. *)
Definition initialState : State :=
  mkState false [] 0 0 85 22 95 60 1 [] false 0 0 0 0.

Definition with_isRunning (x : bool) (s : State) : State :=
  mkState x (vehicles s) (simulationTime s) (vehicleCount s) (airQuality s)
    (temperature s) (visibility s) (ventilationLevel s) (activeCameraZone s)
    (aiInsights s) (incidentDetected s) (lastSpawnTime s) (vehicleIdCounter s)
    (randomCalls s) (clockCalls s).

Definition with_vehicles (x : list Vehicle.t) (s : State) : State :=
  mkState (isRunning s) x (simulationTime s) (vehicleCount s) (airQuality s)
    (temperature s) (visibility s) (ventilationLevel s) (activeCameraZone s)
    (aiInsights s) (incidentDetected s) (lastSpawnTime s) (vehicleIdCounter s)
    (randomCalls s) (clockCalls s).

Definition with_simulationTime (x : Q) (s : State) : State :=
  mkState (isRunning s) (vehicles s) x (vehicleCount s) (airQuality s)
    (temperature s) (visibility s) (ventilationLevel s) (activeCameraZone s)
    (aiInsights s) (incidentDetected s) (lastSpawnTime s) (vehicleIdCounter s)
    (randomCalls s) (clockCalls s).

Definition with_vehicleCount (x : Z) (s : State) : State :=
  mkState (isRunning s) (vehicles s) (simulationTime s) x (airQuality s)
    (temperature s) (visibility s) (ventilationLevel s) (activeCameraZone s)
    (aiInsights s) (incidentDetected s) (lastSpawnTime s) (vehicleIdCounter s)
    (randomCalls s) (clockCalls s).

Definition with_airQuality (x : Q) (s : State) : State :=
  mkState (isRunning s) (vehicles s) (simulationTime s) (vehicleCount s) x
    (temperature s) (visibility s) (ventilationLevel s) (activeCameraZone s)
    (aiInsights s) (incidentDetected s) (lastSpawnTime s) (vehicleIdCounter s)
    (randomCalls s) (clockCalls s).

Definition with_temperature (x : Q) (s : State) : State :=
  mkState (isRunning s) (vehicles s) (simulationTime s) (vehicleCount s)
    (airQuality s) x (visibility s) (ventilationLevel s) (activeCameraZone s)
    (aiInsights s) (incidentDetected s) (lastSpawnTime s) (vehicleIdCounter s)
    (randomCalls s) (clockCalls s).

Definition with_visibility (x : Q) (s : State) : State :=
  mkState (isRunning s) (vehicles s) (simulationTime s) (vehicleCount s)
    (airQuality s) (temperature s) x (ventilationLevel s) (activeCameraZone s)
    (aiInsights s) (incidentDetected s) (lastSpawnTime s) (vehicleIdCounter s)
    (randomCalls s) (clockCalls s).

Definition with_activeCameraZone (x : Z) (s : State) : State :=
  mkState (isRunning s) (vehicles s) (simulationTime s) (vehicleCount s)
    (airQuality s) (temperature s) (visibility s) (ventilationLevel s) x
    (aiInsights s) (incidentDetected s) (lastSpawnTime s) (vehicleIdCounter s)
    (randomCalls s) (clockCalls s).

Definition with_aiInsights (x : list AIInsight.t) (s : State) : State :=
  mkState (isRunning s) (vehicles s) (simulationTime s) (vehicleCount s)
    (airQuality s) (temperature s) (visibility s) (ventilationLevel s)
    (activeCameraZone s) x (incidentDetected s) (lastSpawnTime s)
    (vehicleIdCounter s) (randomCalls s) (clockCalls s).

Definition with_incidentDetected (x : bool) (s : State) : State :=
  mkState (isRunning s) (vehicles s) (simulationTime s) (vehicleCount s)
    (airQuality s) (temperature s) (visibility s) (ventilationLevel s)
    (activeCameraZone s) (aiInsights s) x (lastSpawnTime s)
    (vehicleIdCounter s) (randomCalls s) (clockCalls s).

Definition with_lastSpawnTime (x : Q) (s : State) : State :=
  mkState (isRunning s) (vehicles s) (simulationTime s) (vehicleCount s)
    (airQuality s) (temperature s) (visibility s) (ventilationLevel s)
    (activeCameraZone s) (aiInsights s) (incidentDetected s) x
    (vehicleIdCounter s) (randomCalls s) (clockCalls s).

Definition with_vehicleIdCounter (x : Z) (s : State) : State :=
  mkState (isRunning s) (vehicles s) (simulationTime s) (vehicleCount s)
    (airQuality s) (temperature s) (visibility s) (ventilationLevel s)
    (activeCameraZone s) (aiInsights s) (incidentDetected s) (lastSpawnTime s)
    x (randomCalls s) (clockCalls s).

Definition with_randomCalls (x : nat) (s : State) : State :=
  mkState (isRunning s) (vehicles s) (simulationTime s) (vehicleCount s)
    (airQuality s) (temperature s) (visibility s) (ventilationLevel s)
    (activeCameraZone s) (aiInsights s) (incidentDetected s) (lastSpawnTime s)
    (vehicleIdCounter s) x (clockCalls s).

Definition with_clockCalls (x : nat) (s : State) : State :=
  mkState (isRunning s) (vehicles s) (simulationTime s) (vehicleCount s)
    (airQuality s) (temperature s) (visibility s) (ventilationLevel s)
    (activeCameraZone s) (aiInsights s) (incidentDetected s) (lastSpawnTime s)
    (vehicleIdCounter s) (randomCalls s) x.

(** ** The simulation monad

    A computation reads and writes the state and may stop with [None]: the
    one place where that happens is an array read that yields [undefined]
    where the record type wants a value. *)

Definition Sim (A : Type) : Type := State -> option (A * State).

Definition ret {A : Type} (a : A) : Sim A := fun s => Some (a, s).

Definition bind {A B : Type} (m : Sim A) (k : A -> Sim B) : Sim B :=
  fun s => match m s with
           | Some (a, s') => k a s'
           | None => None
           end.

Definition undefinedValue {A : Type} : Sim A := fun _ => None.

Definition get : Sim State := fun s => Some (s, s).

Definition modify (f : State -> State) : Sim unit := fun s => Some (tt, f s).

Declare Scope sim_scope.
Delimit Scope sim_scope with sim.
Bind Scope sim_scope with Sim.

Notation "x <- m ;; k" := (bind m (fun x => k))
  (at level 61, m at next level, right associativity) : sim_scope.
Notation "m ;; k" := (bind m (fun _ => k))
  (at level 61, right associativity) : sim_scope.

Open Scope sim_scope.

(** [arr.forEach(f)] where [f] mutates the element it is given: the result
    is the array of the mutated elements, in order. *)
Fixpoint forEach {A : Type} (f : A -> Sim A) (arr : list A) : Sim (list A) :=
  match arr with
  | [] => ret []
  | x :: rest => x' <- f x ;; rest' <- forEach f rest ;; ret (x' :: rest')
  end.

(** [arr.map(f)] for an effectful [f]. *)
Fixpoint mapM {A B : Type} (f : A -> Sim B) (arr : list A) : Sim (list B) :=
  match arr with
  | [] => ret []
  | x :: rest => y <- f x ;; ys <- mapM f rest ;; ret (y :: ys)
  end.

(** [arr[i]] in a place that needs a value. *)
Definition readArray {A : Type} (arr : list A) (i : Z) : Sim A :=
  match arrayGet arr i with
  | Some a => ret a
  | None => undefinedValue
  end.

(** The state setters, with a functional updater where the source passes
    one. *)
Definition setIsRunning (b : bool) : Sim unit := modify (with_isRunning b).
Definition setVehicles (f : list Vehicle.t -> list Vehicle.t) : Sim unit :=
  modify (fun s => with_vehicles (f (vehicles s)) s).
Definition setSimulationTime (f : Q -> Q) : Sim unit :=
  modify (fun s => with_simulationTime (f (simulationTime s)) s).
Definition setVehicleCount (n : Z) : Sim unit := modify (with_vehicleCount n).
Definition setAirQuality (f : Q -> Q) : Sim unit :=
  modify (fun s => with_airQuality (f (airQuality s)) s).
Definition setTemperature (f : Q -> Q) : Sim unit :=
  modify (fun s => with_temperature (f (temperature s)) s).
Definition setVisibility (f : Q -> Q) : Sim unit :=
  modify (fun s => with_visibility (f (visibility s)) s).
Definition setActiveCameraZone (z : Z) : Sim unit :=
  modify (with_activeCameraZone z).
Definition setAiInsights (f : list AIInsight.t -> list AIInsight.t) : Sim unit :=
  modify (fun s => with_aiInsights (f (aiInsights s)) s).
Definition setIncidentDetected (b : bool) : Sim unit :=
  modify (with_incidentDetected b).

(** ** The component *)

Section Simulation.

(** The k-th result of [Math.random()]. *)
Variable random : nat -> Q.

(** The k-th reading of the wall clock, in milliseconds. *)
Variable clock : nat -> Z.

(** [Date.prototype.toLocaleTimeString], which depends on the locale. *)
Variable toLocaleTimeString : Z -> string.

Definition Math_random : Sim Q :=
  fun s => Some (random (randomCalls s), with_randomCalls (S (randomCalls s)) s).

Definition readClock : Sim Z :=
  fun s => Some (clock (clockCalls s), with_clockCalls (S (clockCalls s)) s).

(** [Date.now()] *)
Definition Date_now : Sim Z := readClock.

(** [new Date().toLocaleTimeString()] *)
Definition newDate_toLocaleTimeString : Sim string :=
  t <- readClock ;; ret (toLocaleTimeString t).

(** [vehicleIdCounterRef.current++] *)
Definition nextVehicleId : Sim Z :=
  fun s => Some (vehicleIdCounter s,
                 with_vehicleIdCounter (vehicleIdCounter s + 1)%Z s).

Definition vehicleTypes : list VehicleType := [Car; Car; Car; Truck; Car].

Definition colors : list string :=
  ["#3b82f6"; "#ef4444"; "#10b981"; "#f59e0b"; "#8b5cf6"]%string.

(** Vehicle spawning logic. *)
Definition spawnVehicle : Sim Vehicle.t :=
  r_type <- Math_random ;;
  type <- readArray vehicleTypes (Qfloor (r_type * arrayLength vehicleTypes)) ;;
  n <- nextVehicleId ;;
  r_lane <- Math_random ;;
  r_speed <- Math_random ;;
  r_color <- Math_random ;;
  color <- readArray colors (Qfloor (r_color * arrayLength colors)) ;;
  r_temp <- Math_random ;;
  ret (Vehicle.mk
         ("V-" ++ showZ n)%string
         (Qfloor (r_lane * 3))
         0
         (if isTruck type then 0.3 + r_speed * 0.2 else 0.5 + r_speed * 0.3)
         type
         color
         (20 + r_temp * 15)
         false).

(** Get camera zone for position. *)
Definition getCameraZoneForPosition (position : Q) : string :=
  if Qltb position 25 then "CAM-01"%string
  else if Qltb position 50 then "CAM-02"%string
  else if Qltb position 75 then "CAM-03"%string
  else "CAM-04"%string.

(** The two rules of the detector, as the source tests them. *)
Definition stallRule (vehicle : Vehicle.t) : bool :=
  Qltb (Vehicle.speed vehicle) 0.2 && negb (Vehicle.detected vehicle).

Definition heatRule (vehicle : Vehicle.t) : bool :=
  Qgtb (Vehicle.temperature vehicle) 30 && negb (Vehicle.detected vehicle).

Definition stallMessage (vehicle : Vehicle.t) : string :=
  ("Slow/stopped " ++ showVehicleType (Vehicle.type vehicle)
   ++ " detected in Lane " ++ showZ (Vehicle.lane vehicle + 1)
   ++ " at " ++ showZ (Math_round (Vehicle.position vehicle)) ++ "%")%string.

Definition heatMessage (vehicle : Vehicle.t) : string :=
  ("Hot spot detected: " ++ showVehicleType (Vehicle.type vehicle)
   ++ " showing " ++ showZ (Math_round (Vehicle.temperature vehicle))
   ++ "°C in Lane " ++ showZ (Vehicle.lane vehicle + 1))%string.

(** The insight object built by the stall rule. *)
Definition stallInsight (now : Z) (time : string) (vehicle : Vehicle.t)
  : AIInsight.t :=
  AIInsight.mk ("AI-" ++ showZ now)%string time Warning
    (stallMessage vehicle)
    (Some (getCameraZoneForPosition (Vehicle.position vehicle))).

(** The insight object built by the heat rule. *)
Definition heatInsight (now : Z) (time : string) (vehicle : Vehicle.t)
  : AIInsight.t :=
  AIInsight.mk ("AI-" ++ showZ now)%string time Critical
    (heatMessage vehicle)
    (Some (getCameraZoneForPosition (Vehicle.position vehicle))).

(** The updater [prev => [insight, ...prev].slice(0, 5)]. *)
Definition pushInsight (insight : AIInsight.t) (prev : list AIInsight.t)
  : list AIInsight.t :=
  slice0 5 (insight :: prev).

(** The body of the [forEach] callback of [detectIncidents]; the result is
    the vehicle object after the callback's writes to it. *)
Definition detectVehicle (vehicle : Vehicle.t) : Sim Vehicle.t :=
  vehicle <-
    (if stallRule vehicle then
       let vehicle := Vehicle.setDetected vehicle in
       setIncidentDetected true ;;
       now <- Date_now ;;
       time <- newDate_toLocaleTimeString ;;
       let insight := stallInsight now time vehicle in
       setAiInsights (pushInsight insight) ;;
       ret vehicle
     else ret vehicle) ;;
  if heatRule vehicle then
    let vehicle := Vehicle.setDetected vehicle in
    now <- Date_now ;;
    time <- newDate_toLocaleTimeString ;;
    let insight := heatInsight now time vehicle in
    setAiInsights (pushInsight insight) ;;
    ret vehicle
  else ret vehicle.

(** AI detection logic. *)
Definition detectIncidents (vehicleList : list Vehicle.t)
  : Sim (list Vehicle.t) :=
  forEach detectVehicle vehicleList.

(** The object literal of the motion update, for a given draw. *)
Definition moved (r : Q) (v : Vehicle.t) : Vehicle.t :=
  Vehicle.mk (Vehicle.id v) (Vehicle.lane v)
    (Vehicle.position v + Vehicle.speed v)
    (if Qgtb r 0.995 then Vehicle.speed v * 0.3 else Vehicle.speed v)
    (Vehicle.type v) (Vehicle.color v) (Vehicle.temperature v)
    (Vehicle.detected v).

Definition moveVehicle (v : Vehicle.t) : Sim Vehicle.t :=
  r <- Math_random ;; ret (moved r v).

Definition inTunnel (v : Vehicle.t) : bool := Qltb (Vehicle.position v) 100.

(** The updater passed to [setVehicles] in [animate]. *)
Definition updateVehicles : Sim unit :=
  s <- get ;;
  mapped <- mapM moveVehicle (vehicles s) ;;
  let updated := filter inTunnel mapped in
  updated <- detectIncidents updated ;;
  setVehicleCount (Z.of_nat (List.length updated)) ;;
  setVehicles (fun _ => updated).

(** [Math.max(lo, Math.min(hi, x))] *)
Definition clamp (lo hi x : Q) : Q := Qmax lo (Qmin hi x).

(** Spawn new vehicles periodically. *)
Definition spawnPeriodically (timestamp : Q) : Sim unit :=
  s <- get ;;
  r <- Math_random ;;
  if Qgtb (timestamp - lastSpawnTime s) (2000 + r * 2000) then
    v <- spawnVehicle ;;
    setVehicles (fun prev => prev ++ [v]) ;;
    modify (with_lastSpawnTime timestamp)
  else ret tt.

(** Update environmental sensors. *)
Definition updateSensors : Sim unit :=
  r <- Math_random ;;
  setAirQuality (fun prev => Qmax 70 (Qmin 100 (prev + (r - 0.5) * 2))) ;;
  r <- Math_random ;;
  setTemperature (fun prev => Qmax 18 (Qmin 28 (prev + (r - 0.5) * 0.5))) ;;
  r <- Math_random ;;
  setVisibility (fun prev => Qmax 80 (Qmin 100 (prev + (r - 0.5) * 1))).

(** Animation loop: one call of [animate].  Asking for the next frame is
    left to the scheduler. *)
Definition animate (timestamp : Q) : Sim unit :=
  s <- get ;;
  if negb (isRunning s) then ret tt
  else
    spawnPeriodically timestamp ;;
    updateVehicles ;;
    updateSensors ;;
    setSimulationTime (fun prev => prev + 0.1).

(** Reset simulation.  The spawn timer [lastSpawnTimeRef] is not touched. *)
Definition resetSimulation : Sim unit :=
  setIsRunning false ;;
  setVehicles (fun _ => []) ;;
  setSimulationTime (fun _ => 0) ;;
  setVehicleCount 0 ;;
  setAirQuality (fun _ => 85) ;;
  setTemperature (fun _ => 22) ;;
  setVisibility (fun _ => 95) ;;
  modify (fun s =>
    mkState (isRunning s) (vehicles s) (simulationTime s) (vehicleCount s)
      (airQuality s) (temperature s) (visibility s) 60 (activeCameraZone s)
      (aiInsights s) (incidentDetected s) (lastSpawnTime s)
      (vehicleIdCounter s) (randomCalls s) (clockCalls s)) ;;
  setAiInsights (fun _ => []) ;;
  setIncidentDetected false ;;
  modify (with_vehicleIdCounter 0).

(** What can happen to the component: an animation frame, or one of the
    buttons. *)
Inductive Event : Type :=
  | AnimationFrame (timestamp : Q)
  | StartPauseClick
  | ResetClick
  | AcknowledgeClick
  | CameraClick (zone : Z).

Definition handle (e : Event) : Sim unit :=
  match e with
  | AnimationFrame timestamp => animate timestamp
  | StartPauseClick => s <- get ;; setIsRunning (negb (isRunning s))
  | ResetClick => resetSimulation
  | AcknowledgeClick => setIncidentDetected false
  | CameraClick zone => setActiveCameraZone zone
  end.

Fixpoint handleAll (es : list Event) : Sim unit :=
  match es with
  | [] => ret tt
  | e :: rest => handle e ;; handleAll rest
  end.

(** The states the component can be in: those that a sequence of events
    produces from the first render. *)
Definition reachable (s : State) : Prop :=
  exists es, handleAll es initialState = Some (tt, s).

(** One vehicle followed through a tick: the motion update, then the
    detector's callback. *)
Definition vehicleTick (v : Vehicle.t) : Sim Vehicle.t :=
  v' <- moveVehicle v ;; detectVehicle v'.

Fixpoint vehicleTicks (n : nat) (v : Vehicle.t) : Sim Vehicle.t :=
  match n with
  | O => ret v
  | S n' => v' <- vehicleTick v ;; vehicleTicks n' v'
  end.

End Simulation.

(** ** Reasoning about computations *)

(** Partial correctness of a computation: from a state in [P], a run that
    returns does so with a result and a state in [R]. *)
Definition hoare {A : Type} (P : State -> Prop) (m : Sim A)
    (R : A -> State -> Prop) : Prop :=
  forall s a s', P s -> m s = Some (a, s') -> R a s'.

(** A state invariant kept by a computation. *)
Definition preserves {A : Type} (I : State -> Prop) (m : Sim A) : Prop :=
  hoare I m (fun _ => I).

(** A computation that always returns. *)
Definition returns {A : Type} (m : Sim A) : Prop :=
  forall s, exists a s', m s = Some (a, s').

(** The state after the stall rule has fired for [v] in state [s]: the
    writes of the first [if] of the detector's callback. *)
Definition stallEffect (clock : nat -> Z) (toLocaleTimeString : Z -> string)
    (v : Vehicle.t) (s : State) : State :=
  with_aiInsights
    (pushInsight
       (stallInsight (clock (clockCalls s))
          (toLocaleTimeString (clock (S (clockCalls s))))
          (Vehicle.setDetected v))
       (aiInsights s))
    (with_clockCalls (S (S (clockCalls s))) (with_incidentDetected true s)).

(** The state after the heat rule has fired for [v] in state [s]: the
    writes of the second [if] of the detector's callback. *)
Definition heatEffect (clock : nat -> Z) (toLocaleTimeString : Z -> string)
    (v : Vehicle.t) (s : State) : State :=
  with_aiInsights
    (pushInsight
       (heatInsight (clock (clockCalls s))
          (toLocaleTimeString (clock (S (clockCalls s))))
          (Vehicle.setDetected v))
       (aiInsights s))
    (with_clockCalls (S (S (clockCalls s))) s).

(** A range for the results of [Math.random()]: at least 0, below 1. *)
Definition unitRange (random : nat -> Q) : Prop :=
  forall k, 0 <= random k /\ random k < 1.

(** ** Sample inputs *)

(** A car that runs at a normal speed and is hotter than 30 degrees. *)
Definition hotCar : Vehicle.t :=
  Vehicle.mk "V-0" 0 10 0.6 Car "#3b82f6" 32 false.

(** A truck that runs at a normal speed and is hotter than 30 degrees. *)
Definition hotTruck : Vehicle.t :=
  Vehicle.mk "V-1" 1 60 0.4 Truck "#ef4444" 33 false.

(** A vehicle that is both slow and hot. *)
Definition slowHotCar : Vehicle.t :=
  Vehicle.mk "V-2" 2 30 0.1 Car "#10b981" 34 false.

(** A clock that gives the same millisecond at every reading, as it does for
    the readings taken within one pass of the detector. *)
Definition frozenClock : nat -> Z := fun _ => 1700000000000%Z.

(** Draws that are all 1/2. *)
Definition evenDraws : nat -> Q := fun _ => 0.5.

(** A time format that prints the milliseconds. *)
Definition plainTime : Z -> string := showZ.

(** ** Descriptions of the motion update *)

(** The motion update of a list of vehicles, the first of which gets the
    k-th draw. *)
Fixpoint movedFrom (random : nat -> Q) (k : nat) (vs : list Vehicle.t)
  : list Vehicle.t :=
  match vs with
  | [] => []
  | v :: rest => moved (random k) v :: movedFrom random (S k) rest
  end.

(** The vehicle after the detector's callback. *)
Definition flagged (v : Vehicle.t) : Vehicle.t :=
  if stallRule v || heatRule v then Vehicle.setDetected v else v.

(** The vehicles that the motion update keeps. *)
Definition staysIn (v : Vehicle.t) : bool :=
  Qltb (Vehicle.position v + Vehicle.speed v) 100.

(** A vehicle of the new live set, next to the vehicle it was. *)
Definition advanced (v v' : Vehicle.t) : Prop :=
  Vehicle.id v' = Vehicle.id v
  /\ Vehicle.position v' = Vehicle.position v + Vehicle.speed v.

(** The environmental signals within their bounds. *)
Definition sensorsInBounds (s : State) : Prop :=
  (70 <= airQuality s /\ airQuality s <= 100)
  /\ (18 <= temperature s /\ temperature s <= 28)
  /\ (80 <= visibility s /\ visibility s <= 100).

(** A run of animation frames. *)
Definition frames (timestamps : list Q) : list Event :=
  map AnimationFrame timestamps.


Definition VehicleType_eq_dec (a b : VehicleType) : {a = b} + {a <> b}.
Proof. decide equality. Defined.

(** The vehicle that [spawnVehicle] builds in state [s] when its two array
    reads give [type] and [color]. *)
Definition spawned (random : nat -> Q) (s : State) (type : VehicleType)
    (color : string) : Vehicle.t :=
  Vehicle.mk
    ("V-" ++ showZ (vehicleIdCounter s))%string
    (Qfloor (random (S (randomCalls s)) * 3))
    0
    (if isTruck type
     then 0.3 + random (S (S (randomCalls s))) * 0.2
     else 0.5 + random (S (S (randomCalls s))) * 0.3)
    type
    color
    (20 + random (S (S (S (S (randomCalls s))))) * 15)
    false.


(** Every live vehicle has a positive speed. *)
Definition speedsPositive (s : State) : Prop :=
  Forall (fun v => 0 < Vehicle.speed v) (vehicles s).

(** A log without stall alerts. *)
Definition noWarning (log : list AIInsight.t) : Prop :=
  Forall (fun a => AIInsight.type a <> Warning) log.

(** Draws for a frame in which a truck is spawned at speed 0.3 and slowed
    down by the motion update of the same frame: the spawn threshold, then
    type, lane, speed, colour and temperature, then the slowdown draw. *)
Definition spawnTickDraws : nat -> Q :=
  fun k =>
    match k with
    | 0%nat => 0
    | 1%nat => 0.6
    | 2%nat => 0.5
    | 3%nat => 0
    | 4%nat => 0.1
    | 5%nat => 0.2
    | 6%nat => 0.999
    | _ => 0.5
    end.


(** ** The view

    The parts of the markup that compute with the state. *)

(** [a >= b] on numbers. *)
Definition Qgeb (a b : Q) : bool := Qle_bool b a.

Module CameraZone.
Record t : Type := mk {
  id : string;
  position : Q;
  active : bool;
  detectedIncidents : list string
}.
End CameraZone.

(** The camera system: the initial value of the [cameraZones] cell, which
    has no setter. *)
Definition cameraZones : list CameraZone.t :=
  [ CameraZone.mk "CAM-01" 20 true [];
    CameraZone.mk "CAM-02" 40 true [];
    CameraZone.mk "CAM-03" 60 true [];
    CameraZone.mk "CAM-04" 80 true [] ].

(** The first [n] characters of [cur] followed by [filler] over and over. *)
Fixpoint repeatTo (n : nat) (cur filler : string) : string :=
  match n with
  | O => EmptyString
  | S n' =>
      match cur with
      | String c cur' => String c (repeatTo n' cur' filler)
      | EmptyString =>
          match filler with
          | String c filler' => String c (repeatTo n' filler' filler)
          | EmptyString => EmptyString
          end
      end
  end.

(** [s.padStart(targetLength, padString)] *)
Definition padStart (targetLength : nat) (padString s : string) : string :=
  if (targetLength <=? String.length s)%nat then s
  else (repeatTo (targetLength - String.length s) padString padString ++ s)%string.

(** The label of a camera button: [CAM-${zone.toString().padStart(2, '0')}]. *)
Definition cameraButtonLabel (zone : Z) : string :=
  ("CAM-" ++ padStart 2 "0" (showZ zone))%string.

(** The camera buttons: [[1, 2, 3, 4].map(zone => ...)]. *)
Definition cameraButtons : list Z := [1; 2; 3; 4]%Z.

(** Whether the indicator of the camera at index [idx] is lit:
    [activeCameraZone === idx + 1]. *)
Definition indicatorLit (activeCameraZone : Z) (idx : nat) : bool :=
  (activeCameraZone =? Z.of_nat idx + 1)%Z.

(** [isInActiveZone] of the vehicle markup. *)
Definition isInActiveZone (activeCameraZone : Z) (vehicle : Vehicle.t) : bool :=
  Qgeb (Vehicle.position vehicle) ((inject_Z activeCameraZone - 1) * 25)
  && Qltb (Vehicle.position vehicle) (inject_Z activeCameraZone * 25).

(** [laneOffset] of the vehicle markup. *)
Definition laneOffset (vehicle : Vehicle.t) : Q :=
  inject_Z (Vehicle.lane vehicle) * 33.33.

(** The [left] and [top] of a vehicle, in percent of the tunnel box. *)
Definition leftPercent (vehicle : Vehicle.t) : Q := laneOffset vehicle + 10.
Definition topPercent (vehicle : Vehicle.t) : Q := Vehicle.position vehicle.

(** The temperature indicator for hot vehicles and the speed indicator. *)
Definition hotIndicator (vehicle : Vehicle.t) : bool :=
  Qgtb (Vehicle.temperature vehicle) 30.
Definition speedIndicator (vehicle : Vehicle.t) : bool :=
  Qltb (Vehicle.speed vehicle) 0.2.

(** The box of an insight in the sidebar. *)
Definition insightBoxClass (insight : AIInsight.t) : string :=
  match AIInsight.type insight with
  | Critical => "bg-red-900/30 border-red-500/50"
  | Warning => "bg-yellow-900/30 border-yellow-500/50"
  | Info => "bg-blue-900/30 border-blue-500/50"
  end.

(** ** Descriptions used by the further properties *)

(** The alert that a pass of the detector writes for a vehicle that matches
    a rule. *)
Definition reports (v : Vehicle.t) (a : AIInsight.t) : Prop :=
  AIInsight.type a = (if stallRule v then Warning else Critical)
  /\ AIInsight.message a = (if stallRule v then stallMessage v else heatMessage v)
  /\ AIInsight.zone a = Some (getCameraZoneForPosition (Vehicle.position v)).

(** The vehicles for which a pass of the detector writes an alert. *)
Definition matchesRule (v : Vehicle.t) : bool := stallRule v || heatRule v.

(** What holds of every vehicle in the tunnel. *)
Definition wellFormed (v : Vehicle.t) : Prop :=
  (0 <= Vehicle.lane v <= 2)%Z
  /\ 0 <= Vehicle.position v /\ Vehicle.position v < 100
  /\ 0 <= Vehicle.speed v /\ Vehicle.speed v < 0.8
  /\ 20 <= Vehicle.temperature v /\ Vehicle.temperature v <= 35
  /\ Vehicle.type v <> Emergency
  /\ In (Vehicle.color v) colors.

(** The ids of the vehicles are [V-k] for numbers [k] that grow along the
    list and lie in [lo, hi). *)
Fixpoint idsWithin (lo hi : Z) (vs : list Vehicle.t) : Prop :=
  match vs with
  | [] => True
  | v :: rest =>
      exists k, (lo <= k < hi)%Z
                /\ Vehicle.id v = ("V-" ++ showZ k)%string
                /\ idsWithin (k + 1) hi rest
  end.

(** The number of slowdown draws among the [n] draws from the [c]-th on. *)
Definition countSlowdowns (random : nat -> Q) (c n : nat) : nat :=
  List.length (filter (fun k => Qgtb (random k) 0.995) (seq c n)).

(** A result with its state changed by [f]. *)
Definition onState {A : Type} (f : State -> State) (r : option (A * State))
  : option (A * State) :=
  match r with
  | Some (a, s) => Some (a, f s)
  | None => None
  end.

(** A computation that neither reads nor writes what [f] changes. *)
Definition ignores {A : Type} (f : State -> State) (m : Sim A) : Prop :=
  forall s, m (f s) = onState f (m s).

(** The state after a frame that spawns a vehicle, before the motion
    update. *)
Definition afterSpawn (random : nat -> Q) (timestamp : Q) (s : State)
    (type : VehicleType) (color : string) : State :=
  with_lastSpawnTime timestamp
    (with_vehicles
       (vehicles s
        ++ [spawned random (with_randomCalls (S (randomCalls s)) s) type color])
       (with_randomCalls (6 + randomCalls s)
          (with_vehicleIdCounter (vehicleIdCounter s + 1)%Z s))).


(** What holds of every alert that the detector writes: it is a warning or
    a critical alert, and it names one of the four cameras. *)
Definition fromDetector (a : AIInsight.t) : Prop :=
  AIInsight.type a <> Info
  /\ exists z, AIInsight.zone a = Some z
               /\ In z (map CameraZone.id cameraZones).


(** The state after Start and one frame at 5000 ms, with every draw at
    1/2: the frame spawns the car V-0. *)
Definition firstFrameState : State :=
  match handleAll evenDraws frozenClock plainTime
          [StartPauseClick; AnimationFrame 5000] initialState with
  | Some (_, s) => s
  | None => initialState
  end.

(** The state after Start and one frame at 5000 ms, with the draws that slow
    down the truck spawned in the frame: the log holds its stall alert. *)
Definition firstAlertState : State :=
  match handleAll spawnTickDraws frozenClock plainTime
          [StartPauseClick; AnimationFrame 5000] initialState with
  | Some (_, s) => s
  | None => initialState
  end.


(** ** The arithmetic of the source on binary64 numbers

    The expressions of the source whose value depends on rounding, computed
    on the doubles that JavaScript computes with.  They show where exact
    arithmetic and the code part: the statements about numbers below are
    phrased so that they hold for both. *)

Module Binary64.
Import PrimFloat.
Local Open Scope float_scope.

(** [type === 'truck' ? 0.3 + Math.random() * 0.2 : 0.5 + Math.random() * 0.3] *)
Definition spawnSpeed (truck : bool) (r : float) : float :=
  if truck then 0.3 + r * 0.2 else 0.5 + r * 0.3.

(** [20 + Math.random() * 15] *)
Definition spawnTemperature (r : float) : float := 20 + r * 15.

(** [v.speed * 0.3] *)
Definition slowedSpeed (speed : float) : float := speed * 0.3.

(** [v.position + v.speed] *)
Definition nextPosition (position speed : float) : float := position + speed.

(** [prev + 0.1] *)
Definition nextSimulationTime (prev : float) : float := prev + 0.1.

(** [2000 + Math.random() * 2000] *)
Definition spawnThreshold (r : float) : float := 2000 + r * 2000.

(** The largest double below 1, a possible result of [Math.random()]. *)
Definition largestDraw : float := 0x1.fffffffffffffp-1.

End Binary64.

(** ** Relations between the live set before and after a frame *)

(** The list of vehicles that the motion update of a frame at [timestamp]
    works on, from state [s]: the live set, followed by the vehicle that
    [spawnVehicle] returns in this frame when the spawn timer lets it. *)
Definition enteredInFrame (random : nat -> Q) (timestamp : Q) (s : State)
    (entered : list Vehicle.t) : Prop :=
  (Qgtb (timestamp - lastSpawnTime s)
        (2000 + random (randomCalls s) * 2000) = false
   /\ entered = vehicles s)
  \/ (Qgtb (timestamp - lastSpawnTime s)
           (2000 + random (randomCalls s) * 2000) = true
      /\ exists v s1,
           spawnVehicle random (with_randomCalls (S (randomCalls s)) s)
           = Some (v, s1)
           /\ entered = vehicles s ++ [v]).

(** A vehicle after the frame, next to itself before the frame: same id,
    moved on by its speed, not slower than zero and not faster than
    before. *)
Definition steppedForward (v v' : Vehicle.t) : Prop :=
  Vehicle.id v' = Vehicle.id v
  /\ Vehicle.position v' = Vehicle.position v + Vehicle.speed v
  /\ Vehicle.position v <= Vehicle.position v'
  /\ 0 <= Vehicle.speed v'
  /\ Vehicle.speed v' <= Vehicle.speed v.

(** A vehicle after the frame, next to itself before the frame: the
    attributes that a frame leaves alone. *)
Definition keepsAttributes (v v' : Vehicle.t) : Prop :=
  Vehicle.id v' = Vehicle.id v
  /\ Vehicle.lane v' = Vehicle.lane v
  /\ Vehicle.type v' = Vehicle.type v
  /\ Vehicle.color v' = Vehicle.color v
  /\ Vehicle.temperature v' = Vehicle.temperature v
  /\ (Vehicle.detected v = true -> Vehicle.detected v' = true).


(** ** Facts about the primitives *)

Lemma Qltb_lt (a b : Q) : Qltb a b = true <-> a < b.
Proof.
  unfold Qltb. rewrite negb_true_iff. split.
  - intros H. apply Qnot_le_lt. intro Hle.
    apply Qle_bool_iff in Hle. congruence.
  - intros H. destruct (Qle_bool b a) eqn:E; [|reflexivity].
    apply Qle_bool_iff in E. exfalso. apply (Qlt_not_le _ _ H E).
Qed.

Lemma Qltb_ge (a b : Q) : Qltb a b = false <-> b <= a.
Proof.
  unfold Qltb. rewrite negb_false_iff. apply Qle_bool_iff.
Qed.

Lemma Qgtb_gt (a b : Q) : Qgtb a b = true <-> b < a.
Proof. unfold Qgtb. apply Qltb_lt. Qed.

Lemma Qgtb_le (a b : Q) : Qgtb a b = false <-> a <= b.
Proof. unfold Qgtb. apply Qltb_ge. Qed.

Lemma clamp_bounds (lo hi x : Q) :
  lo <= hi -> lo <= clamp lo hi x /\ clamp lo hi x <= hi.
Proof.
  intros Hlh. unfold clamp. split.
  - apply Q.le_max_l.
  - apply Q.max_lub; [exact Hlh | apply Q.le_min_l].
Qed.

(** An index computed as [Math.floor(r * n)] from a draw [r] in [0,1) is a
    valid index of an array of length [n]. *)
Lemma floor_index_range (r : Q) (n : Z) :
  (0 < n)%Z -> 0 <= r -> r < 1 ->
  (0 <= Qfloor (r * inject_Z n) < n)%Z.
Proof.
  intros Hn H0 H1.
  assert (Hq : 0 < inject_Z n).
  { change 0 with (inject_Z 0). rewrite <- Zlt_Qlt. exact Hn. }
  split.
  - change 0%Z with (Qfloor (inject_Z 0)).
    apply Qfloor_resp_le. change (inject_Z 0) with 0.
    apply Qmult_le_0_compat; [exact H0 | apply Qlt_le_weak; exact Hq].
  - assert (Hlt : r * inject_Z n < inject_Z n).
    { setoid_replace (inject_Z n) with (1 * inject_Z n) at 2 by ring.
      apply Qmult_lt_compat_r; assumption. }
    pose proof (Qfloor_le (r * inject_Z n)) as Hf.
    rewrite Zlt_Qlt. eapply Qle_lt_trans; eassumption.
Qed.

Lemma arrayGet_in_range {A : Type} (arr : list A) (i : Z) :
  (0 <= i < Z.of_nat (List.length arr))%Z -> exists a, arrayGet arr i = Some a.
Proof.
  intros [H0 H1]. unfold arrayGet.
  destruct (Z.ltb_spec i 0); [lia|].
  destruct (nth_error arr (Z.to_nat i)) eqn:E; [eauto|].
  apply nth_error_None in E. lia.
Qed.

(** ** Rules for [hoare], [preserves] and [returns] *)

Lemma preserves_ret {A : Type} (I : State -> Prop) (a : A) :
  preserves I (ret a).
Proof. intros s a' s' HI H. inversion H; subst. exact HI. Qed.

Lemma preserves_bind {A B : Type} (I : State -> Prop) (m : Sim A)
    (k : A -> Sim B) :
  preserves I m -> (forall a, preserves I (k a)) -> preserves I (bind m k).
Proof.
  intros Hm Hk s b s' HI H. unfold bind in H.
  destruct (m s) as [[a s1]|] eqn:E; [|discriminate].
  eapply Hk; [|exact H]. eapply Hm; eassumption.
Qed.

Lemma preserves_get (I : State -> Prop) : preserves I get.
Proof. intros s a s' HI H. inversion H; subst. exact HI. Qed.

Lemma preserves_modify (I : State -> Prop) (f : State -> State) :
  (forall s, I s -> I (f s)) -> preserves I (modify f).
Proof. intros Hf s a s' HI H. inversion H; subst. auto. Qed.

Lemma preserves_undefined {A : Type} (I : State -> Prop) :
  preserves I (@undefinedValue A).
Proof. intros s a s' _ H. discriminate. Qed.

Lemma preserves_readArray {A : Type} (I : State -> Prop) (arr : list A)
    (i : Z) :
  preserves I (readArray arr i).
Proof.
  unfold readArray. destruct (arrayGet arr i).
  - apply preserves_ret.
  - apply preserves_undefined.
Qed.

Lemma preserves_forEach {A : Type} (I : State -> Prop) (f : A -> Sim A)
    (arr : list A) :
  (forall x, preserves I (f x)) -> preserves I (forEach f arr).
Proof.
  intros Hf. induction arr as [|x rest IH]; simpl.
  - apply preserves_ret.
  - apply preserves_bind; [apply Hf|]. intros x'.
    apply preserves_bind; [exact IH|]. intros rest'. apply preserves_ret.
Qed.

Lemma preserves_mapM {A B : Type} (I : State -> Prop) (f : A -> Sim B)
    (arr : list A) :
  (forall x, preserves I (f x)) -> preserves I (mapM f arr).
Proof.
  intros Hf. induction arr as [|x rest IH]; simpl.
  - apply preserves_ret.
  - apply preserves_bind; [apply Hf|]. intros y.
    apply preserves_bind; [exact IH|]. intros ys. apply preserves_ret.
Qed.

Lemma returns_ret {A : Type} (a : A) : returns (ret a).
Proof. intros s. exists a, s. reflexivity. Qed.

Lemma returns_bind {A B : Type} (m : Sim A) (k : A -> Sim B) :
  returns m -> (forall a, returns (k a)) -> returns (bind m k).
Proof.
  intros Hm Hk s. destruct (Hm s) as (a & s1 & E).
  destruct (Hk a s1) as (b & s2 & E2).
  exists b, s2. unfold bind. rewrite E. exact E2.
Qed.

Lemma returns_modify (f : State -> State) : returns (modify f).
Proof. intros s. exists tt, (f s). reflexivity. Qed.

Lemma returns_forEach {A : Type} (f : A -> Sim A) (arr : list A) :
  (forall x, returns (f x)) -> returns (forEach f arr).
Proof.
  intros Hf. induction arr as [|x rest IH]; simpl.
  - apply returns_ret.
  - apply returns_bind; [apply Hf|]. intros x'.
    apply returns_bind; [exact IH|]. intros rest'. apply returns_ret.
Qed.

Lemma returns_mapM {A B : Type} (f : A -> Sim B) (arr : list A) :
  (forall x, returns (f x)) -> returns (mapM f arr).
Proof.
  intros Hf. induction arr as [|x rest IH]; simpl.
  - apply returns_ret.
  - apply returns_bind; [apply Hf|]. intros y.
    apply returns_bind; [exact IH|]. intros ys. apply returns_ret.
Qed.

(** One step of a proof that a computation keeps an invariant: split a
    bind, a conditional or a loop, and leave the writes to the caller. *)
Ltac preserves_step :=
  lazymatch goal with
  | |- preserves _ (bind _ _) => apply preserves_bind; [|intro]
  | |- preserves _ (ret _) => apply preserves_ret
  | |- preserves _ get => apply preserves_get
  | |- preserves _ (readArray _ _) => apply preserves_readArray
  | |- preserves _ (forEach _ _) => apply preserves_forEach; intro
  | |- preserves _ (mapM _ _) => apply preserves_mapM; intro
  | |- preserves _ (if ?c then _ else _) => destruct c
  | |- preserves _ (modify _) => apply preserves_modify; intros ? ?
  | |- preserves _ (let _ := _ in _) => cbv zeta
  end.

Ltac returns_step :=
  lazymatch goal with
  | |- returns (bind _ _) => apply returns_bind; [|intro]
  | |- returns (ret _) => apply returns_ret
  | |- returns (modify _) => apply returns_modify
  | |- returns (forEach _ _) => apply returns_forEach; intro
  | |- returns (mapM _ _) => apply returns_mapM; intro
  | |- returns (if ?c then _ else _) => destruct c
  | |- returns (let _ := _ in _) => cbv zeta
  end.

Lemma preserves_state {A : Type} (I : State -> Prop) (g : State -> A)
    (f : State -> State) :
  (forall s, I s -> I (f s)) -> preserves I (fun s => Some (g s, f s)).
Proof. intros Hf s a s' HI H. inversion H; subst. auto. Qed.

Lemma returns_state {A : Type} (g : State -> A) (f : State -> State) :
  returns (fun s => Some (g s, f s)).
Proof. intros s. exists (g s), (f s). reflexivity. Qed.

Ltac unfold_program :=
  unfold handle, resetSimulation, animate, spawnPeriodically, updateSensors,
    updateVehicles, detectIncidents,
    detectVehicle, moveVehicle, spawnVehicle, newDate_toLocaleTimeString,
    Date_now, setIsRunning, setVehicles, setSimulationTime, setVehicleCount,
    setAirQuality, setTemperature, setVisibility, setActiveCameraZone,
    setAiInsights, setIncidentDetected.

Ltac preserves_prim :=
  lazymatch goal with
  | |- preserves _ (Math_random _) =>
      unfold Math_random; apply preserves_state; intros ? ?
  | |- preserves _ (readClock _) =>
      unfold readClock; apply preserves_state; intros ? ?
  | |- preserves _ nextVehicleId =>
      unfold nextVehicleId; apply preserves_state; intros ? ?
  end.

Ltac preserves_auto :=
  unfold_program; repeat first [preserves_step | preserves_prim].

(** ** The alert log *)

Arguments pushInsight : simpl never.

Lemma pushInsight_cons (a : AIInsight.t) (log : list AIInsight.t) :
  pushInsight a log = a :: firstn 4 log.
Proof. reflexivity. Qed.

Lemma pushInsight_length (a : AIInsight.t) (log : list AIInsight.t) :
  (List.length (pushInsight a log) <= 5)%nat.
Proof. unfold pushInsight, slice0. apply firstn_le_length. Qed.

Lemma firstn_app_firstn {A : Type} (n : nat) (xs ys : list A) :
  firstn n (xs ++ firstn n ys) = firstn n (xs ++ ys).
Proof.
  rewrite !firstn_app, firstn_firstn.
  replace (Nat.min (n - List.length xs) n) with (n - List.length xs)%nat by lia.
  reflexivity.
Qed.

Lemma pushInsight_fold (alerts log : list AIInsight.t) :
  (List.length log <= 5)%nat ->
  fold_left (fun l a => pushInsight a l) alerts log
  = firstn 5 (rev alerts ++ log).
Proof.
  revert log.
  induction alerts as [|a alerts IH]; intros log Hlen; cbn [fold_left rev app].
  - symmetry. apply firstn_all2. exact Hlen.
  - rewrite IH by apply pushInsight_length.
    unfold pushInsight, slice0. rewrite firstn_app_firstn.
    rewrite <- app_assoc. reflexivity.
Qed.

Section Facts.

Variable random : nat -> Q.
Variable clock : nat -> Z.
Variable toLocaleTimeString : Z -> string.

(** An invariant of the first render that every event keeps holds in every
    reachable state. *)
Lemma reachable_invariant (I : State -> Prop) :
  I initialState ->
  (forall e, preserves I (handle random clock toLocaleTimeString e)) ->
  forall s, reachable random clock toLocaleTimeString s -> I s.
Proof.
  intros H0 Hstep s [es Hes]. revert Hes H0.
  generalize initialState as s0.
  induction es as [|e es IH]; intros s0 Hes H0; simpl in Hes.
  - inversion Hes; subst. exact H0.
  - unfold bind in Hes.
    destruct (handle random clock toLocaleTimeString e s0) as [[[] s1]|] eqn:E;
      [|discriminate].
    apply (IH s1 Hes). eapply Hstep; eassumption.
Qed.

Lemma handle_keeps_log_bound (e : Event) :
  preserves (fun s => (List.length (aiInsights s) <= 5)%nat)
    (handle random clock toLocaleTimeString e).
Proof.
  destruct e; preserves_auto; cbn; auto using pushInsight_length with arith.
Qed.

(** C3. The alert log of a reachable state has at most 5 entries, and it is
    ordered most recent first: an append puts the new alert in front of the
    4 newest ones it keeps, so a run of appends leaves the 5 newest, newest
    first, and six appends A, B, C, D, E, F leave exactly F, E, D, C, B. *)
Theorem alert_log_bounded_most_recent_first :
  forall s, reachable random clock toLocaleTimeString s ->
    (List.length (aiInsights s) <= 5)%nat
    /\ (forall a, pushInsight a (aiInsights s) = a :: firstn 4 (aiInsights s))
    /\ (forall alerts,
          fold_left (fun log a => pushInsight a log) alerts (aiInsights s)
          = firstn 5 (rev alerts ++ aiInsights s))
    /\ (forall A B C D E F,
          pushInsight F (pushInsight E (pushInsight D (pushInsight C
            (pushInsight B (pushInsight A (aiInsights s))))))
          = [F; E; D; C; B]).
Proof.
  intros s Hs.
  assert (Hlen : (List.length (aiInsights s) <= 5)%nat).
  { revert s Hs. apply reachable_invariant.
    - simpl. lia.
    - exact handle_keeps_log_bound. }
  split; [exact Hlen|]. split; [intro a; apply pushInsight_cons|].
  split; [intro alerts; apply pushInsight_fold; exact Hlen|].
  intros A B C D E F. reflexivity.
Qed.

(** C6. From any state, [resetSimulation] returns, and leaves an empty
    vehicle set, elapsed time 0, vehicle count 0, the environmental defaults
    85, 22 and 95, an empty alert log, the incident flag down and the clock
    stopped. *)
Theorem reset_restores_initial_values :
  forall s, exists s',
    resetSimulation s = Some (tt, s')
    /\ vehicles s' = []
    /\ simulationTime s' = 0
    /\ vehicleCount s' = 0%Z
    /\ airQuality s' = 85
    /\ temperature s' = 22
    /\ visibility s' = 95
    /\ aiInsights s' = []
    /\ incidentDetected s' = false
    /\ isRunning s' = false.
Proof.
  intros s. eexists. split; [reflexivity|]. simpl. repeat split.
Qed.

(** ** The detector *)

Lemma stallRule_detected (v : Vehicle.t) :
  Vehicle.detected v = true -> stallRule v = false.
Proof. intros H. unfold stallRule. rewrite H. apply andb_false_r. Qed.

Lemma heatRule_detected (v : Vehicle.t) :
  Vehicle.detected v = true -> heatRule v = false.
Proof. intros H. unfold heatRule. rewrite H. apply andb_false_r. Qed.

Lemma stallRule_true (v : Vehicle.t) :
  stallRule v = true <-> Vehicle.speed v < 0.2 /\ Vehicle.detected v = false.
Proof.
  unfold stallRule. rewrite andb_true_iff, negb_true_iff, Qltb_lt. tauto.
Qed.

Lemma heatRule_true (v : Vehicle.t) :
  heatRule v = true <-> 30 < Vehicle.temperature v /\ Vehicle.detected v = false.
Proof.
  unfold heatRule. rewrite andb_true_iff, negb_true_iff, Qgtb_gt. tauto.
Qed.

(** The three ways through the detector's callback. *)
Lemma detectVehicle_cases (v : Vehicle.t) (s : State) :
  (stallRule v = true
   /\ detectVehicle clock toLocaleTimeString v s
      = Some (Vehicle.setDetected v, stallEffect clock toLocaleTimeString v s))
  \/ (stallRule v = false /\ heatRule v = true
      /\ detectVehicle clock toLocaleTimeString v s
         = Some (Vehicle.setDetected v, heatEffect clock toLocaleTimeString v s))
  \/ (stallRule v = false /\ heatRule v = false
      /\ detectVehicle clock toLocaleTimeString v s = Some (v, s)).
Proof.
  unfold detectVehicle, bind.
  destruct (stallRule v) eqn:Es.
  - left. split; [reflexivity|]. cbn.
    rewrite (heatRule_detected (Vehicle.setDetected v) eq_refl).
    reflexivity.
  - right. cbn. destruct (heatRule v) eqn:Eh.
    + left. auto.
    + right. auto.
Qed.

Lemma detectVehicle_returns (v : Vehicle.t) :
  returns (detectVehicle clock toLocaleTimeString v).
Proof.
  intros s.
  destruct (detectVehicle_cases v s) as [[_ H]|[(_ & _ & H)|(_ & _ & H)]];
    rewrite H; eauto.
Qed.

(** A vehicle whose flag is up goes through the detector untouched, and so
    does the state. *)
Lemma detectVehicle_detected (v : Vehicle.t) (s : State) :
  Vehicle.detected v = true ->
  detectVehicle clock toLocaleTimeString v s = Some (v, s).
Proof.
  intros Hd.
  destruct (detectVehicle_cases v s) as [[H _]|[(_ & H & _)|(_ & _ & H)]].
  - rewrite stallRule_detected in H by exact Hd. discriminate.
  - rewrite heatRule_detected in H by exact Hd. discriminate.
  - exact H.
Qed.

(** The vehicle that the detector's callback returns. *)
Lemma detectVehicle_flagged (v v' : Vehicle.t) (s s' : State) :
  detectVehicle clock toLocaleTimeString v s = Some (v', s') ->
  v' = flagged v.
Proof.
  unfold flagged.
  destruct (detectVehicle_cases v s) as [[Hs H]|[(Hs & Hh & H)|(Hs & Hh & H)]];
    rewrite H, Hs; try rewrite Hh; cbn; congruence.
Qed.

(** One tick of one vehicle is what a frame does to each vehicle of the
    live set: the motion update with the next draw, then the callback. *)
Lemma vehicleTick_flagged_moved (v v' : Vehicle.t) (s s' : State) :
  vehicleTick random clock toLocaleTimeString v s = Some (v', s') ->
  v' = flagged (moved (random (randomCalls s)) v).
Proof.
  unfold vehicleTick, bind, moveVehicle, Math_random, bind, ret.
  apply detectVehicle_flagged.
Qed.

(** Once the flag is up, no later tick emits an alert for the vehicle. *)
Lemma vehicleTicks_detected (n : nat) :
  forall v s, Vehicle.detected v = true ->
  exists v' s',
    vehicleTicks random clock toLocaleTimeString n v s = Some (v', s')
    /\ Vehicle.detected v' = true
    /\ aiInsights s' = aiInsights s
    /\ incidentDetected s' = incidentDetected s.
Proof.
  induction n as [|n IH]; intros v s Hd; simpl.
  - exists v, s. auto.
  - unfold bind, vehicleTick, moveVehicle, Math_random. unfold bind. cbn.
    rewrite detectVehicle_detected by exact Hd.
    destruct (IH (moved (random (randomCalls s)) v)
                 (with_randomCalls (S (randomCalls s)) s) Hd)
      as (v' & s' & E & Hd' & Hlog & Hflag).
    exists v', s'. auto.
Qed.

(** C1. One pass of the detector over a vehicle whose flag is down emits at
    most one alert for it.  The stall rule is tried first: a vehicle that is
    slow gets the warning and nothing else, whether it is hot or not; a
    vehicle that is only hot gets the critical alert; a vehicle that is
    neither gets nothing.  A matching rule raises the vehicle's flag, and
    once the flag is up no later tick emits any alert for that vehicle: a
    vehicle that matched both rules got the warning and never gets the
    critical alert.  The detector leaves any vehicle with its flag up, and
    the state, untouched, whatever the vehicle's speed and temperature. *)
Theorem detection_emits_at_most_one_alert :
  forall v s,
    Vehicle.detected v = false ->
    aiInsights s = [] ->
    exists v' s',
      detectVehicle clock toLocaleTimeString v s = Some (v', s')
      /\ (List.length (aiInsights s') <= 1)%nat
      /\ (Vehicle.speed v < 0.2 ->
          exists a, aiInsights s' = [a] /\ AIInsight.type a = Warning
                    /\ Vehicle.detected v' = true)
      /\ (0.2 <= Vehicle.speed v -> 30 < Vehicle.temperature v ->
          exists a, aiInsights s' = [a] /\ AIInsight.type a = Critical
                    /\ Vehicle.detected v' = true)
      /\ (0.2 <= Vehicle.speed v -> Vehicle.temperature v <= 30 ->
          aiInsights s' = [] /\ Vehicle.detected v' = false)
      /\ (Vehicle.detected v' = true ->
          forall n s1, exists v'' s'',
            vehicleTicks random clock toLocaleTimeString n v' s1
            = Some (v'', s'')
            /\ Vehicle.detected v'' = true
            /\ aiInsights s'' = aiInsights s1)
      /\ (forall w s1,
            Vehicle.detected w = true ->
            detectVehicle clock toLocaleTimeString w s1 = Some (w, s1)).
Proof.
  intros v s Hd Hlog.
  assert (Hlater : forall v', Vehicle.detected v' = true ->
            forall n s1, exists v'' s'',
              vehicleTicks random clock toLocaleTimeString n v' s1
              = Some (v'', s'')
              /\ Vehicle.detected v'' = true
              /\ aiInsights s'' = aiInsights s1).
  { intros v' Hv' n s1.
    destruct (vehicleTicks_detected n v' s1 Hv')
      as (v'' & s'' & E & Hd'' & Hl & _).
    exists v'', s''. auto. }
  assert (Hspeed : stallRule v = false -> 0.2 <= Vehicle.speed v).
  { unfold stallRule. rewrite Hd. cbn [negb]. rewrite andb_true_r.
    apply Qltb_ge. }
  assert (Htemp : heatRule v = false -> Vehicle.temperature v <= 30).
  { unfold heatRule. rewrite Hd. cbn [negb]. rewrite andb_true_r.
    apply Qgtb_le. }
  destruct (detectVehicle_cases v s) as [[Hs H]|[(Hs & Hh & H)|(Hs & Hh & H)]].
  - (* the stall rule fires *)
    apply stallRule_true in Hs. destruct Hs as [Hslow _].
    exists (Vehicle.setDetected v), (stallEffect clock toLocaleTimeString v s).
    split; [exact H|]. unfold stallEffect. cbn [aiInsights with_aiInsights].
    rewrite Hlog, pushInsight_cons. cbn [firstn].
    split; [cbn; lia|].
    split; [intros _; eexists; repeat split|].
    split; [intros Hfast; exfalso; apply (Qlt_not_le _ _ Hslow Hfast)|].
    split; [intros Hfast; exfalso; apply (Qlt_not_le _ _ Hslow Hfast)|].
    split; [intros _; apply Hlater; reflexivity|].
    intros w s1. apply detectVehicle_detected.
  - (* only the heat rule fires *)
    apply Hspeed in Hs. apply heatRule_true in Hh. destruct Hh as [Hhot _].
    exists (Vehicle.setDetected v), (heatEffect clock toLocaleTimeString v s).
    split; [exact H|]. unfold heatEffect. cbn [aiInsights with_aiInsights].
    rewrite Hlog, pushInsight_cons. cbn [firstn].
    split; [cbn; lia|].
    split; [intros Hslow; exfalso; apply (Qlt_not_le _ _ Hslow Hs)|].
    split; [intros _ _; eexists; repeat split|].
    split; [intros _ Hcool; exfalso; apply (Qlt_not_le _ _ Hhot Hcool)|].
    split; [intros _; apply Hlater; reflexivity|].
    intros w s1. apply detectVehicle_detected.
  - (* no rule fires *)
    apply Hspeed in Hs. apply Htemp in Hh.
    exists v, s. split; [exact H|]. rewrite Hlog.
    split; [cbn; lia|].
    split; [intros Hslow; exfalso; apply (Qlt_not_le _ _ Hslow Hs)|].
    split; [intros _ Hhot; exfalso; apply (Qlt_not_le _ _ Hhot Hh)|].
    split; [intros _ _; split; [reflexivity | exact Hd]|].
    split; [intros Hup; congruence|].
    intros w s1. apply detectVehicle_detected.
Qed.

(** C2, at a vehicle that only the heat rule matches: the pass raises the
    vehicle's flag and logs a critical alert with the zone of the vehicle's
    position, and the incident flag of the component stays down. *)
Theorem heat_alert_leaves_incident_flag_down :
  exists a s',
    detectIncidents clock toLocaleTimeString [hotCar] initialState
    = Some ([Vehicle.setDetected hotCar], s')
    /\ aiInsights s' = [a]
    /\ AIInsight.type a = Critical
    /\ AIInsight.zone a
       = Some (getCameraZoneForPosition (Vehicle.position hotCar))
    /\ incidentDetected s' = false.
Proof.
  eexists. eexists. split; [reflexivity|].
  unfold pushInsight. cbn. repeat split.
Qed.

(** The same vehicle made slow: the stall rule raises the incident flag. *)
Lemma stall_alert_raises_incident_flag (v : Vehicle.t) (s : State) :
  stallRule v = true ->
  exists s',
    detectVehicle clock toLocaleTimeString v s
    = Some (Vehicle.setDetected v, s')
    /\ incidentDetected s' = true.
Proof.
  intros Hs.
  destruct (detectVehicle_cases v s) as [[_ H]|[(Hs' & _)|(Hs' & _)]];
    try congruence.
  eexists. split; [exact H|]. reflexivity.
Qed.

(** The heat rule never writes the incident flag. *)
Lemma heat_alert_keeps_incident_flag (v : Vehicle.t) (s : State) :
  stallRule v = false -> heatRule v = true ->
  exists s',
    detectVehicle clock toLocaleTimeString v s
    = Some (Vehicle.setDetected v, s')
    /\ incidentDetected s' = incidentDetected s.
Proof.
  intros Hs Hh.
  destruct (detectVehicle_cases v s) as [[Hs' _]|[(_ & _ & H)|(_ & Hh' & _)]];
    try congruence.
  eexists. split; [exact H|]. reflexivity.
Qed.

(** An animation frame never lowers the incident flag. *)
Lemma animate_keeps_incident_flag (timestamp : Q) :
  preserves (fun s => incidentDetected s = true)
    (animate random clock toLocaleTimeString timestamp).
Proof. preserves_auto; cbn; auto. Qed.

(** C5, at two hot vehicles inspected within one millisecond: the two
    alerts of the pass carry the same id. *)
Theorem alert_ids_collide_in_one_pass :
  exists a b s',
    detectIncidents frozenClock toLocaleTimeString [hotCar; hotTruck]
      initialState
    = Some ([Vehicle.setDetected hotCar; Vehicle.setDetected hotTruck], s')
    /\ aiInsights s' = [b; a]
    /\ AIInsight.id a = "AI-1700000000000"%string
    /\ AIInsight.id b = "AI-1700000000000"%string
    /\ AIInsight.id a = AIInsight.id b.
Proof.
  eexists. eexists. eexists. split; [reflexivity|].
  unfold pushInsight. cbn. repeat split.
Qed.

(** ** The motion update *)

Lemma mapM_moveVehicle (vs : list Vehicle.t) :
  forall s,
    mapM (moveVehicle random) vs s
    = Some (movedFrom random (randomCalls s) vs,
            with_randomCalls (randomCalls s + List.length vs) s).
Proof.
  induction vs as [|v rest IH]; intros s.
  - destruct s. cbn. rewrite Nat.add_0_r. reflexivity.
  - cbn [mapM]. unfold bind at 1. unfold moveVehicle at 1.
    unfold bind at 1. unfold Math_random at 1. cbn [ret].
    unfold bind at 1. rewrite IH. unfold ret, with_randomCalls. cbn.
    do 3 f_equal. lia.
Qed.

Lemma forEach_detectVehicle (vs : list Vehicle.t) :
  forall s, exists s',
    forEach (detectVehicle clock toLocaleTimeString) vs s
    = Some (map flagged vs, s').
Proof.
  induction vs as [|v rest IH]; intros s; cbn [forEach map].
  - exists s. reflexivity.
  - unfold bind at 1.
    assert (Hv : exists s1, detectVehicle clock toLocaleTimeString v s
                            = Some (flagged v, s1)).
    { destruct (detectVehicle_returns v s) as (v1 & s1 & E).
      rewrite (detectVehicle_flagged _ _ _ _ E) in E. eauto. }
    destruct Hv as [s1 Hv]. rewrite Hv.
    destruct (IH s1) as [s2 H2]. unfold bind at 1. rewrite H2.
    exists s2. reflexivity.
Qed.

Lemma detectIncidents_keeps_vehicles (vs : list Vehicle.t) (L : list Vehicle.t) :
  preserves (fun s => vehicles s = L)
    (detectIncidents clock toLocaleTimeString vs).
Proof. preserves_auto; cbn; auto. Qed.

(** The updater of the motion step always returns, and the new live set is
    the old one moved, filtered and inspected. *)
Lemma updateVehicles_spec (s : State) :
  exists s',
    updateVehicles random clock toLocaleTimeString s = Some (tt, s')
    /\ vehicles s'
       = map flagged
           (filter inTunnel (movedFrom random (randomCalls s) (vehicles s))).
Proof.
  unfold updateVehicles. unfold bind at 1. cbn [get].
  unfold bind at 1. rewrite mapM_moveVehicle.
  unfold bind at 1. unfold detectIncidents.
  destruct (forEach_detectVehicle
              (filter inTunnel (movedFrom random (randomCalls s) (vehicles s)))
              (with_randomCalls (randomCalls s + List.length (vehicles s)) s))
    as [s1 H1].
  rewrite H1. eexists. split; [reflexivity|]. reflexivity.
Qed.

Lemma flagged_position (v : Vehicle.t) :
  Vehicle.position (flagged v) = Vehicle.position v.
Proof. unfold flagged. destruct (stallRule v || heatRule v); reflexivity. Qed.

Lemma flagged_speed (v : Vehicle.t) :
  Vehicle.speed (flagged v) = Vehicle.speed v.
Proof. unfold flagged. destruct (stallRule v || heatRule v); reflexivity. Qed.

Lemma flagged_id (v : Vehicle.t) : Vehicle.id (flagged v) = Vehicle.id v.
Proof. unfold flagged. destruct (stallRule v || heatRule v); reflexivity. Qed.

Lemma In_movedFrom (vs : list Vehicle.t) :
  forall k m, In m (movedFrom random k vs) ->
    exists v r, In v vs /\ m = moved r v.
Proof.
  induction vs as [|v rest IH]; intros k m Hin; cbn in Hin.
  - contradiction.
  - destruct Hin as [<-|Hin].
    + exists v, (random k). split; [left; reflexivity|reflexivity].
    + destruct (IH _ _ Hin) as (v0 & r & Hv0 & ->).
      exists v0, r. split; [right; exact Hv0|reflexivity].
Qed.

(** The survivors of the motion update are, in order, the vehicles for
    which [position + speed] is below 100, each one advanced by its speed. *)
Lemma survivors_advanced (vs : list Vehicle.t) :
  forall k,
    Forall2 advanced (filter staysIn vs)
      (map flagged (filter inTunnel (movedFrom random k vs))).
Proof.
  induction vs as [|v rest IH]; intros k; cbn [filter movedFrom map].
  - constructor.
  - change (inTunnel (moved (random k) v)) with (staysIn v).
    destruct (staysIn v); cbn [map]; [|apply IH].
    constructor; [|apply IH].
    split; [rewrite flagged_id | rewrite flagged_position]; reflexivity.
Qed.

(** C4. The motion update always returns.  Every vehicle of the new live
    set has a position below 100; the new live set holds, in order, exactly
    the vehicles whose [position + speed] is below 100, each advanced by its
    speed, so a vehicle leaves in the very tick in which [position + speed]
    reaches 100; a lone vehicle at 99.5 with speed 0.6 is gone after the
    tick. *)
Theorem motion_step_keeps_positions_below_100 :
  forall s, exists s',
    updateVehicles random clock toLocaleTimeString s = Some (tt, s')
    /\ Forall (fun v => Vehicle.position v < 100) (vehicles s')
    /\ Forall2 advanced (filter staysIn (vehicles s)) (vehicles s')
    /\ (forall v, In v (vehicles s) ->
          (100 <= Vehicle.position v + Vehicle.speed v <-> staysIn v = false))
    /\ (forall v, vehicles s = [v] ->
          Vehicle.position v == 99.5 -> Vehicle.speed v == 0.6 ->
          vehicles s' = []).
Proof.
  intros s. destruct (updateVehicles_spec s) as (s' & Hrun & Hv).
  exists s'. split; [exact Hrun|].
  split.
  { rewrite Hv. apply Forall_forall. intros v' Hin.
    apply in_map_iff in Hin. destruct Hin as (m & <- & Hm).
    apply filter_In in Hm. destruct Hm as [_ Hm].
    rewrite flagged_position. apply Qltb_lt. exact Hm. }
  split; [rewrite Hv; apply survivors_advanced|].
  split.
  { intros v _. unfold staysIn. symmetry. apply Qltb_ge. }
  intros v Hs Hp Hsp. rewrite Hv, Hs. cbn [movedFrom filter].
  assert (Hout : inTunnel (moved (random (randomCalls s)) v) = false).
  { unfold inTunnel. cbn. apply Qltb_ge. rewrite Hp, Hsp. lra. }
  rewrite Hout. reflexivity.
Qed.

(** ** The generator *)

Hypothesis random_range : unitRange random.

Lemma readArray_in_range {A : Type} (arr : list A) (r : Q) (s : State) :
  arr <> [] -> 0 <= r -> r < 1 ->
  exists a,
    arrayGet arr (Qfloor (r * arrayLength arr)) = Some a
    /\ readArray arr (Qfloor (r * arrayLength arr)) s = Some (a, s).
Proof.
  intros Hne H0 H1. unfold arrayLength.
  destruct (arrayGet_in_range arr (Qfloor (r * inject_Z (Z.of_nat (List.length arr)))))
    as [a Ha].
  { apply floor_index_range; try assumption.
    destruct arr; [congruence | cbn; lia]. }
  exists a. split; [exact Ha|]. unfold readArray. rewrite Ha. reflexivity.
Qed.

(** With draws in [0,1) the generator always returns. *)
Lemma spawnVehicle_spec (s : State) :
  exists type color,
    arrayGet vehicleTypes (Qfloor (random (randomCalls s) * 5)) = Some type
    /\ spawnVehicle random s
       = Some (spawned random s type color,
               with_randomCalls (5 + randomCalls s)
                 (with_vehicleIdCounter (vehicleIdCounter s + 1)%Z s)).
Proof.
  destruct (random_range (randomCalls s)) as [Ha0 Ha1].
  destruct (random_range (S (S (S (randomCalls s))))) as [Hc0 Hc1].
  unfold spawnVehicle.
  unfold bind at 1. unfold Math_random at 1.
  unfold bind at 1.
  destruct (readArray_in_range vehicleTypes (random (randomCalls s))
              (with_randomCalls (S (randomCalls s)) s))
    as (type & Htype & Hread); try assumption; [discriminate|].
  cbn [randomCalls with_randomCalls] in Hread |- *.
  rewrite Hread.
  unfold bind at 1. unfold nextVehicleId at 1.
  do 3 (unfold bind at 1; unfold Math_random at 1).
  unfold bind at 1. cbn [randomCalls with_randomCalls with_vehicleIdCounter].
  match goal with
  | |- context [readArray colors ?i ?st] =>
      destruct (readArray_in_range colors
                  (random (S (S (S (randomCalls s))))) st)
        as (color & _ & Hcol); try assumption; [discriminate|]
  end.
  rewrite Hcol.
  unfold bind at 1. unfold Math_random at 1.
  exists type, color. split; [exact Htype|]. reflexivity.
Qed.

Lemma vehicleTypes_index (i : Z) (type : VehicleType) :
  arrayGet vehicleTypes i = Some type ->
  (type = Truck /\ i = 3%Z) \/ (type = Car /\ i <> 3%Z).
Proof.
  unfold arrayGet. destruct (Z.ltb_spec i 0); [discriminate|].
  destruct (Z.to_nat i) as [|[|[|[|[|n]]]]] eqn:E; cbn; intros Hget.
  1-3, 5: right; split; [congruence | lia].
  - left. split; [congruence | lia].
  - destruct n; discriminate.
Qed.

Lemma floor_times_5_is_3 (r : Q) : Qfloor (r * 5) = 3%Z <-> 0.6 <= r /\ r < 0.8.
Proof.
  pose proof (Qfloor_le (r * 5)) as Hlo.
  pose proof (Qlt_floor (r * 5)) as Hhi.
  split.
  - intros E. rewrite E in Hlo, Hhi.
    change (inject_Z 3) with 3 in Hlo. change (inject_Z (3 + 1)) with 4 in Hhi.
    split; lra.
  - intros [H6 H8].
    assert (H3 : (3 <= Qfloor (r * 5))%Z).
    { change 3%Z with (Qfloor (inject_Z 3)). apply Qfloor_resp_le.
      change (inject_Z 3) with 3. lra. }
    assert (H4 : (Qfloor (r * 5) < 4)%Z).
    { rewrite Zlt_Qlt. change (inject_Z 4) with 4. lra. }
    lia.
Qed.

(** C9, amended.  With draws in [0,1) the generator always returns a
    vehicle.  Its type is the entry of the five-entry table (four of them
    car, one truck, none emergency) at the index drawn, so it is car or
    truck and never emergency, and it is truck exactly for the draws in
    [0.6, 0.8), one fifth of the range.  A truck has a speed from 0.3 to
    0.5, the upper end included, a car a speed in [0.5, 0.8); the position
    is 0 and the flag is down. *)
Theorem spawned_vehicle_type_speed_and_start :
  forall s, exists v s',
    spawnVehicle random s = Some (v, s')
    /\ arrayGet vehicleTypes (Qfloor (random (randomCalls s) * 5))
       = Some (Vehicle.type v)
    /\ List.length vehicleTypes = 5%nat
    /\ count_occ VehicleType_eq_dec vehicleTypes Car = 4%nat
    /\ count_occ VehicleType_eq_dec vehicleTypes Truck = 1%nat
    /\ count_occ VehicleType_eq_dec vehicleTypes Emergency = 0%nat
    /\ (Vehicle.type v = Car \/ Vehicle.type v = Truck)
    /\ Vehicle.type v <> Emergency
    /\ (Vehicle.type v = Truck <->
        0.6 <= random (randomCalls s) /\ random (randomCalls s) < 0.8)
    /\ (Vehicle.type v = Truck ->
        0.3 <= Vehicle.speed v /\ Vehicle.speed v <= 0.5)
    /\ (Vehicle.type v = Car ->
        0.5 <= Vehicle.speed v /\ Vehicle.speed v < 0.8)
    /\ Vehicle.position v = 0
    /\ Vehicle.detected v = false.
Proof.
  intros s. destruct (spawnVehicle_spec s) as (type & color & Htype & Hrun).
  destruct (random_range (S (S (randomCalls s)))) as [Hs0 Hs1].
  eexists. eexists. split; [exact Hrun|].
  cbn [spawned Vehicle.type Vehicle.speed Vehicle.position Vehicle.detected].
  split; [exact Htype|].
  do 4 (split; [reflexivity|]).
  pose proof (vehicleTypes_index _ _ Htype) as Hidx.
  pose proof (floor_times_5_is_3 (random (randomCalls s))) as H3.
  split; [tauto|].
  split; [destruct Hidx as [[-> _]|[-> _]]; discriminate|].
  split.
  { split.
    - intros ->. destruct Hidx as [[_ Hi]|[Hc _]]; [|discriminate].
      apply H3. exact Hi.
    - intros Hr. apply H3 in Hr.
      destruct Hidx as [[Ht _]|[_ Hi]]; [exact Ht | contradiction]. }
  split; [intros ->; cbn; split; lra|].
  split; [intros ->; cbn; split; lra|].
  split; reflexivity.
Qed.

(** ** One animation frame *)

Ltac returns_prim :=
  lazymatch goal with
  | |- returns (Math_random _) => unfold Math_random; apply returns_state
  | |- returns (readClock _) => unfold readClock; apply returns_state
  | |- returns nextVehicleId => unfold nextVehicleId; apply returns_state
  | |- returns get => unfold get; apply returns_state
  end.

Lemma spawnVehicle_returns : returns (spawnVehicle random).
Proof.
  intros s. destruct (spawnVehicle_spec s) as (type & color & _ & H).
  rewrite H. eauto.
Qed.

Lemma updateVehicles_returns :
  returns (updateVehicles random clock toLocaleTimeString).
Proof.
  intros s. destruct (updateVehicles_spec s) as (s' & H & _).
  exists tt, s'. exact H.
Qed.

Lemma spawnPeriodically_returns (timestamp : Q) :
  returns (spawnPeriodically random timestamp).
Proof.
  unfold spawnPeriodically, setVehicles.
  repeat first [ returns_step | returns_prim | apply spawnVehicle_returns ].
Qed.

Lemma updateSensors_returns : returns (updateSensors random).
Proof.
  unfold updateSensors, setAirQuality, setTemperature, setVisibility.
  repeat first [ returns_step | returns_prim ].
Qed.

Lemma animate_returns (timestamp : Q) :
  returns (animate random clock toLocaleTimeString timestamp).
Proof.
  unfold animate, setSimulationTime.
  repeat first [ returns_step | returns_prim
               | apply spawnPeriodically_returns
               | apply updateVehicles_returns
               | apply updateSensors_returns ].
Qed.

(** A frame of a stopped clock changes nothing. *)
Lemma animate_stopped (timestamp : Q) (s : State) :
  isRunning s = false ->
  animate random clock toLocaleTimeString timestamp s = Some (tt, s).
Proof.
  intros H. unfold animate, bind, get. rewrite H. reflexivity.
Qed.

(** A frame of a running clock is the four steps in a row. *)
Lemma animate_running (timestamp : Q) (s s' : State) :
  isRunning s = true ->
  animate random clock toLocaleTimeString timestamp s = Some (tt, s') ->
  exists s1 s2 s3,
    spawnPeriodically random timestamp s = Some (tt, s1)
    /\ updateVehicles random clock toLocaleTimeString s1 = Some (tt, s2)
    /\ updateSensors random s2 = Some (tt, s3)
    /\ s' = with_simulationTime (simulationTime s3 + 0.1) s3.
Proof.
  intros Hrun H. unfold animate in H. unfold bind at 1 in H.
  cbn [get] in H. rewrite Hrun in H. cbn [negb] in H.
  unfold bind at 1 in H.
  destruct (spawnPeriodically random timestamp s) as [[[] s1]|] eqn:E1;
    [|discriminate].
  unfold bind at 1 in H.
  destruct (updateVehicles random clock toLocaleTimeString s1)
    as [[[] s2]|] eqn:E2; [|discriminate].
  unfold bind at 1 in H.
  destruct (updateSensors random s2) as [[[] s3]|] eqn:E3; [|discriminate].
  unfold setSimulationTime, modify in H. inversion H.
  exists s1, s2, s3. repeat split; first [reflexivity | assumption].
Qed.

(** ** The environmental signals *)

Lemma updateSensors_spec (s : State) :
  exists s',
    updateSensors random s = Some (tt, s')
    /\ airQuality s'
       = clamp 70 100 (airQuality s + (random (randomCalls s) - 0.5) * 2)
    /\ temperature s'
       = clamp 18 28
           (temperature s + (random (S (randomCalls s)) - 0.5) * 0.5)
    /\ visibility s'
       = clamp 80 100
           (visibility s + (random (S (S (randomCalls s))) - 0.5) * 1).
Proof. eexists. split; [reflexivity|]. cbn. repeat split. Qed.

Lemma sensors_kept_until_update (a t v : Q) (timestamp : Q) :
  preserves (fun s => airQuality s = a /\ temperature s = t /\ visibility s = v)
    (spawnPeriodically random timestamp ;;
     updateVehicles random clock toLocaleTimeString).
Proof. preserves_auto; cbn; auto. Qed.

Lemma clamped_in_bounds (lo hi x : Q) :
  lo <= hi -> lo <= Qmax lo (Qmin hi x) /\ Qmax lo (Qmin hi x) <= hi.
Proof. apply clamp_bounds. Qed.

Lemma handle_keeps_sensors_in_bounds (e : Event) :
  preserves sensorsInBounds (handle random clock toLocaleTimeString e).
Proof.
  destruct e; preserves_auto;
    match goal with
    | H : sensorsInBounds _ |- _ =>
        destruct H as ((Ha0 & Ha1) & (Ht0 & Ht1) & (Hv0 & Hv1))
    end;
    unfold sensorsInBounds;
    cbn [airQuality temperature visibility with_isRunning with_vehicles
         with_simulationTime with_vehicleCount with_airQuality
         with_temperature with_visibility with_activeCameraZone
         with_aiInsights with_incidentDetected with_lastSpawnTime
         with_vehicleIdCounter with_randomCalls with_clockCalls];
    repeat split; try assumption;
    try (apply clamped_in_bounds; lra); try lra.
Qed.

Lemma frames_keep_sensors_in_bounds (timestamps : list Q) :
  forall s, sensorsInBounds s ->
  exists s',
    handleAll random clock toLocaleTimeString (frames timestamps) s
    = Some (tt, s')
    /\ sensorsInBounds s'
    /\ isRunning s' = isRunning s.
Proof.
  induction timestamps as [|t rest IH]; intros s Hs; cbn [frames map handleAll].
  - exists s. auto.
  - unfold bind. cbn [handle].
    destruct (animate_returns t s) as ([] & s1 & E). rewrite E.
    assert (Hs1 : sensorsInBounds s1).
    { eapply (handle_keeps_sensors_in_bounds (AnimationFrame t)); eassumption. }
    assert (Hr1 : isRunning s1 = isRunning s).
    { assert (Hk : preserves (fun x => isRunning x = isRunning s)
                     (animate random clock toLocaleTimeString t))
        by (preserves_auto; cbn; auto).
      eapply Hk; [reflexivity | exact E]. }
    destruct (IH s1 Hs1) as (s' & E' & Hs' & Hr'). fold (frames rest) in E'.
    exists s'. split; [exact E'|]. split; [exact Hs'|]. congruence.
Qed.

(** C7. Start from the default readings 85, 22 and 95.  Any number of
    consecutive frames returns, and leaves air quality in [70,100],
    temperature in [18,28] and visibility in [80,100]; so does one more
    frame, which, when the clock runs, replaces each reading by the clamp
    of the reading plus a perturbation, in [-1,1) for air quality, in
    [-0.25,0.25) for temperature and in [-0.5,0.5) for visibility. *)
Theorem sensors_stay_within_bounds :
  forall s,
    airQuality s = 85 -> temperature s = 22 -> visibility s = 95 ->
    forall timestamps timestamp, exists s1 s2,
      handleAll random clock toLocaleTimeString (frames timestamps) s
      = Some (tt, s1)
      /\ handle random clock toLocaleTimeString (AnimationFrame timestamp) s1
         = Some (tt, s2)
      /\ sensorsInBounds s1
      /\ sensorsInBounds s2
      /\ (isRunning s1 = true ->
          exists d1 d2 d3,
            (-1 <= d1 /\ d1 < 1
             /\ airQuality s2 = clamp 70 100 (airQuality s1 + d1))
            /\ (-0.25 <= d2 /\ d2 < 0.25
                /\ temperature s2 = clamp 18 28 (temperature s1 + d2))
            /\ (-0.5 <= d3 /\ d3 < 0.5
                /\ visibility s2 = clamp 80 100 (visibility s1 + d3))).
Proof.
  intros s Ha Ht Hv timestamps timestamp.
  assert (Hs : sensorsInBounds s).
  { unfold sensorsInBounds. rewrite Ha, Ht, Hv. repeat split; lra. }
  destruct (frames_keep_sensors_in_bounds timestamps s Hs)
    as (s1 & E1 & Hs1 & _).
  destruct (animate_returns timestamp s1) as ([] & s2 & E2).
  exists s1, s2. split; [exact E1|]. split; [exact E2|].
  split; [exact Hs1|].
  split.
  { eapply (handle_keeps_sensors_in_bounds (AnimationFrame timestamp));
      eassumption. }
  intros Hrun.
  destruct (animate_running _ _ _ Hrun E2) as (u1 & u2 & u3 & P1 & P2 & P3 & ->).
  assert (Hkept : airQuality u2 = airQuality s1
                  /\ temperature u2 = temperature s1
                  /\ visibility u2 = visibility s1).
  { eapply (sensors_kept_until_update _ _ _ timestamp s1 tt u2).
    - repeat split.
    - unfold bind. rewrite P1. exact P2. }
  destruct Hkept as (Ka & Kt & Kv).
  destruct (updateSensors_spec u2) as (u3' & P3' & Qa & Qt & Qv).
  rewrite P3 in P3'. inversion P3'; subst u3'.
  destruct (random_range (randomCalls u2)) as [A0 A1].
  destruct (random_range (S (randomCalls u2))) as [B0 B1].
  destruct (random_range (S (S (randomCalls u2)))) as [C0 C1].
  exists ((random (randomCalls u2) - 0.5) * 2),
         ((random (S (randomCalls u2)) - 0.5) * 0.5),
         ((random (S (S (randomCalls u2))) - 0.5) * 1).
  cbn [airQuality temperature visibility with_simulationTime].
  rewrite <- Ka, <- Kt, <- Kv.
  repeat split; try assumption; lra.
Qed.

(** ** Speeds and positions *)

Lemma spawned_speed (s : State) (type : VehicleType) (color : string) :
  0.3 <= Vehicle.speed (spawned random s type color).
Proof.
  destruct (random_range (S (S (randomCalls s)))) as [H0 H1].
  cbn [spawned Vehicle.speed]. destruct (isTruck type); lra.
Qed.

Lemma moved_speed (r : Q) (v : Vehicle.t) :
  0 < Vehicle.speed v ->
  0 < Vehicle.speed (moved r v)
  /\ Vehicle.speed (moved r v) <= Vehicle.speed v.
Proof.
  intros H. cbn [moved Vehicle.speed]. destruct (Qgtb r 0.995); split; lra.
Qed.

(** What the spawn step does to the live set. *)
Lemma spawnPeriodically_vehicles (timestamp : Q) (s s1 : State) :
  spawnPeriodically random timestamp s = Some (tt, s1) ->
  vehicles s1 = vehicles s
  \/ exists s0 type color,
       spawnVehicle random s0
       = Some (spawned random s0 type color,
               with_randomCalls (5 + randomCalls s0)
                 (with_vehicleIdCounter (vehicleIdCounter s0 + 1)%Z s0))
       /\ vehicles s1 = vehicles s ++ [spawned random s0 type color].
Proof.
  unfold spawnPeriodically. unfold bind at 1. cbn [get].
  unfold bind at 1. unfold Math_random at 1.
  destruct (Qgtb (timestamp - lastSpawnTime s)
                 (2000 + random (randomCalls s) * 2000)).
  - unfold bind at 1.
    destruct (spawnVehicle_spec (with_randomCalls (S (randomCalls s)) s))
      as (type & color & _ & Hsp).
    rewrite Hsp. intros H. inversion H; subst s1. right.
    exists (with_randomCalls (S (randomCalls s)) s), type, color.
    split; [exact Hsp | reflexivity].
  - intros H. inversion H; subst s1. left. reflexivity.
Qed.

Lemma updateSensors_keeps_vehicles (L : list Vehicle.t) :
  preserves (fun s => vehicles s = L) (updateSensors random).
Proof. preserves_auto; cbn; auto. Qed.

(** The live set after a frame of a running clock. *)
Lemma animate_vehicles (timestamp : Q) (s s' : State) :
  isRunning s = true ->
  animate random clock toLocaleTimeString timestamp s = Some (tt, s') ->
  exists s1,
    spawnPeriodically random timestamp s = Some (tt, s1)
    /\ vehicles s'
       = map flagged
           (filter inTunnel (movedFrom random (randomCalls s1) (vehicles s1))).
Proof.
  intros Hrun H.
  destruct (animate_running _ _ _ Hrun H) as (s1 & s2 & s3 & P1 & P2 & P3 & ->).
  exists s1. split; [exact P1|].
  destruct (updateVehicles_spec s1) as (s2' & P2' & Hv).
  rewrite P2 in P2'. inversion P2'; subst s2'.
  cbn [vehicles with_simulationTime].
  rewrite (updateSensors_keeps_vehicles (vehicles s2) s2 tt s3 eq_refl P3).
  exact Hv.
Qed.

Lemma handle_keeps_speeds_positive (e : Event) :
  preserves speedsPositive (handle random clock toLocaleTimeString e).
Proof.
  destruct e; try (preserves_auto; cbn; auto; constructor).
  intros s a s' Hs H. cbn [handle] in H. destruct a.
  destruct (isRunning s) eqn:Hrun.
  - destruct (animate_vehicles _ _ _ Hrun H) as (s1 & P1 & Hv).
    assert (Hs1 : speedsPositive s1).
    { unfold speedsPositive in *.
      destruct (spawnPeriodically_vehicles _ _ _ P1)
        as [->|(s0 & type & color & _ & ->)]; [exact Hs|].
      apply Forall_app. split; [exact Hs|].
      constructor; [|constructor].
      pose proof (spawned_speed s0 type color). lra. }
    unfold speedsPositive. rewrite Hv. apply Forall_forall.
    intros v' Hin. apply in_map_iff in Hin. destruct Hin as (m & <- & Hm).
    apply filter_In in Hm. destruct Hm as [Hm _].
    apply In_movedFrom in Hm. destruct Hm as (v & r & Hv0 & ->).
    rewrite flagged_speed. apply moved_speed.
    unfold speedsPositive in Hs1. rewrite Forall_forall in Hs1. auto.
  - rewrite animate_stopped in H by exact Hrun. inversion H; subst. exact Hs.
Qed.

(** Every vehicle of a reachable state is inside the tunnel. *)
Lemma handle_keeps_positions_below_100 (e : Event) :
  preserves (fun s => Forall (fun v => Vehicle.position v < 100) (vehicles s))
    (handle random clock toLocaleTimeString e).
Proof.
  destruct e; try (preserves_auto; cbn; auto; constructor).
  intros s a s' Hs H. cbn [handle] in H. destruct a.
  destruct (isRunning s) eqn:Hrun.
  - destruct (animate_vehicles _ _ _ Hrun H) as (s1 & _ & Hv).
    rewrite Hv. apply Forall_forall. intros v' Hin.
    apply in_map_iff in Hin. destruct Hin as (m & <- & Hm).
    apply filter_In in Hm. destruct Hm as [_ Hm].
    rewrite flagged_position. apply Qltb_lt. exact Hm.
  - rewrite animate_stopped in H by exact Hrun. inversion H; subst. exact Hs.
Qed.

Lemma reachable_positions_below_100 (s : State) :
  reachable random clock toLocaleTimeString s ->
  Forall (fun v => Vehicle.position v < 100) (vehicles s).
Proof.
  revert s. apply reachable_invariant.
  - constructor.
  - exact handle_keeps_positions_below_100.
Qed.

(** The survivors of the motion update, each next to the vehicle it was,
    for a relation that holds between a vehicle and its moved and
    inspected self. *)
Lemma survivors_related (R : Vehicle.t -> Vehicle.t -> Prop)
    (vs : list Vehicle.t) :
  (forall v r, In v vs -> R v (flagged (moved r v))) ->
  forall k,
    Forall2 R (filter staysIn vs)
      (map flagged (filter inTunnel (movedFrom random k vs))).
Proof.
  induction vs as [|v rest IH]; intros HR k; cbn [filter movedFrom map].
  - constructor.
  - change (inTunnel (moved (random k) v)) with (staysIn v).
    assert (Hrest : forall w r, In w rest -> R w (flagged (moved r w)))
      by (intros w r Hw; apply HR; right; exact Hw).
    destruct (staysIn v); cbn [map]; [|apply IH; exact Hrest].
    constructor; [apply HR; left; reflexivity | apply IH; exact Hrest].
Qed.

(** The spawn step leaves in the live set the list that the motion update
    of the frame works on, and moves the id counter and the spawn timer
    only when it spawns. *)
Lemma spawn_step_entered (timestamp : Q) (s s1 : State) :
  spawnPeriodically random timestamp s = Some (tt, s1) ->
  enteredInFrame random timestamp s (vehicles s1)
  /\ (Qgtb (timestamp - lastSpawnTime s)
           (2000 + random (randomCalls s) * 2000) = false ->
      vehicleIdCounter s1 = vehicleIdCounter s
      /\ lastSpawnTime s1 = lastSpawnTime s)
  /\ (Qgtb (timestamp - lastSpawnTime s)
           (2000 + random (randomCalls s) * 2000) = true ->
      vehicleIdCounter s1 = (vehicleIdCounter s + 1)%Z
      /\ lastSpawnTime s1 = timestamp).
Proof.
  destruct (spawnVehicle_spec (with_randomCalls (S (randomCalls s)) s))
    as (type & color & _ & Hsp).
  unfold enteredInFrame, spawnPeriodically. unfold bind at 1. cbn [get].
  unfold bind at 1. unfold Math_random at 1.
  destruct (Qgtb (timestamp - lastSpawnTime s)
                 (2000 + random (randomCalls s) * 2000)).
  - unfold bind at 1. rewrite Hsp. intros P1. inversion P1; subst s1.
    cbn [vehicles vehicleIdCounter lastSpawnTime with_lastSpawnTime
         with_vehicles with_randomCalls with_vehicleIdCounter].
    split; [right; split; [reflexivity|]; eexists; eexists;
            split; reflexivity|].
    split; [discriminate | intros _; split; reflexivity].
  - intros P1. inversion P1; subst s1.
    cbn [vehicles vehicleIdCounter lastSpawnTime with_randomCalls].
    split; [left; split; reflexivity|].
    split; [intros _; split; reflexivity | discriminate].
Qed.

(** The vehicles that enter the motion update of a frame have a speed of
    at least 0, when those of the state before have. *)
Lemma entered_speeds (timestamp : Q) (s : State) (entered : list Vehicle.t) :
  speedsPositive s ->
  enteredInFrame random timestamp s entered ->
  Forall (fun v => 0 < Vehicle.speed v) entered.
Proof.
  intros Hs [[_ ->]|(_ & v & s1 & Hsp & ->)]; [exact Hs|].
  apply Forall_app. split; [exact Hs|]. constructor; [|constructor].
  destruct (spawnVehicle_spec (with_randomCalls (S (randomCalls s)) s))
    as (type & color & _ & E).
  rewrite E in Hsp. inversion Hsp; subst.
  pose proof (spawned_speed (with_randomCalls (S (randomCalls s)) s)
                type color). lra.
Qed.

(** C8, amended.  In a reachable state with the clock running, a frame
    returns.  The motion update works on the live set, followed by the
    vehicle that the generator returns in this frame if the spawn timer
    lets it; the new live set holds, in order, the vehicles of that list
    that stay in the tunnel, each next to itself: same id, the position
    the old one plus the speed and not below the old one, the speed not
    below 0 and not above the old speed. *)
Theorem positions_never_decrease :
  forall s timestamp,
    reachable random clock toLocaleTimeString s ->
    isRunning s = true ->
    exists s' entered,
      animate random clock toLocaleTimeString timestamp s = Some (tt, s')
      /\ enteredInFrame random timestamp s entered
      /\ Forall2 steppedForward (filter staysIn entered) (vehicles s').
Proof.
  intros s timestamp Hreach Hrun.
  assert (Hs : speedsPositive s).
  { clear Hrun. revert s Hreach. apply reachable_invariant.
    - constructor.
    - exact handle_keeps_speeds_positive. }
  destruct (animate_returns timestamp s) as ([] & s' & E).
  destruct (animate_vehicles _ _ _ Hrun E) as (s1 & P1 & Hv).
  destruct (spawn_step_entered _ _ _ P1) as (Hent & _).
  exists s', (vehicles s1). split; [exact E|]. split; [exact Hent|].
  rewrite Hv. apply survivors_related.
  pose proof (entered_speeds _ _ _ Hs Hent) as Hpos.
  rewrite Forall_forall in Hpos.
  intros v r Hin. specialize (Hpos v Hin).
  destruct (moved_speed r v Hpos) as [Hsp0 Hsp1].
  unfold steppedForward.
  rewrite flagged_id, flagged_position, flagged_speed.
  split; [reflexivity|]. split; [reflexivity|].
  split; [cbn [moved Vehicle.position]; lra|].
  split; [lra | exact Hsp1].
Qed.

(** ** Stall alerts and slowdowns *)

Lemma Forall_firstn {A : Type} (P : A -> Prop) (n : nat) (l : list A) :
  Forall P l -> Forall P (firstn n l).
Proof.
  intros H. revert n. induction H as [|x l Hx Hl IH]; intros [|n]; cbn;
    constructor; auto.
Qed.

Lemma noWarning_push (a : AIInsight.t) (log : list AIInsight.t) :
  AIInsight.type a <> Warning -> noWarning log -> noWarning (pushInsight a log).
Proof.
  intros Ha Hlog. rewrite pushInsight_cons. constructor; [exact Ha|].
  apply Forall_firstn. exact Hlog.
Qed.

(** A vehicle at or above the threshold gets no stall alert. *)
Lemma detectVehicle_fast (v : Vehicle.t) (s : State) :
  0.2 <= Vehicle.speed v -> noWarning (aiInsights s) ->
  exists v' s',
    detectVehicle clock toLocaleTimeString v s = Some (v', s')
    /\ Vehicle.speed v' = Vehicle.speed v
    /\ noWarning (aiInsights s')
    /\ randomCalls s' = randomCalls s.
Proof.
  intros Hfast Hlog.
  destruct (detectVehicle_cases v s) as [[Hs H]|[(Hs & Hh & H)|(Hs & Hh & H)]].
  - apply stallRule_true in Hs. destruct Hs as [Hslow _].
    exfalso. apply (Qlt_not_le _ _ Hslow Hfast).
  - eexists. eexists. split; [exact H|].
    split; [reflexivity|]. split; [|reflexivity].
    unfold heatEffect. cbn [aiInsights with_aiInsights].
    apply noWarning_push; [discriminate | exact Hlog].
  - exists v, s. auto.
Qed.

Lemma vehicleTicks_returns (n : nat) :
  forall v, returns (vehicleTicks random clock toLocaleTimeString n v).
Proof.
  induction n as [|n IH]; intros v; cbn [vehicleTicks].
  - apply returns_ret.
  - unfold vehicleTick, moveVehicle.
    repeat first [ returns_step | returns_prim | apply detectVehicle_returns
                 | apply IH ].
Qed.

(** Ticks without a slowdown leave the speed as it is and log no stall
    alert. *)
Lemma ticks_without_slowdown (n : nat) :
  forall v s,
    0.2 <= Vehicle.speed v ->
    noWarning (aiInsights s) ->
    (forall k, (randomCalls s <= k < randomCalls s + n)%nat ->
               random k <= 0.995) ->
    exists v' s',
      vehicleTicks random clock toLocaleTimeString n v s = Some (v', s')
      /\ Vehicle.speed v' = Vehicle.speed v
      /\ noWarning (aiInsights s').
Proof.
  induction n as [|n IH]; intros v s Hfast Hlog Hdraws; cbn [vehicleTicks].
  - exists v, s. auto.
  - unfold bind at 1. unfold vehicleTick. unfold bind at 1.
    unfold moveVehicle. unfold bind at 1. unfold Math_random at 1.
    cbn [ret].
    assert (Hr : Qgtb (random (randomCalls s)) 0.995 = false).
    { apply Qgtb_le. apply Hdraws. lia. }
    assert (Hsame : Vehicle.speed (moved (random (randomCalls s)) v)
                    = Vehicle.speed v).
    { cbn [moved Vehicle.speed]. rewrite Hr. reflexivity. }
    destruct (detectVehicle_fast (moved (random (randomCalls s)) v)
                (with_randomCalls (S (randomCalls s)) s))
      as (v1 & s1 & E1 & Hsp1 & Hlog1 & Hrc1).
    { rewrite Hsame. exact Hfast. }
    { exact Hlog. }
    rewrite E1.
    destruct (IH v1 s1) as (v' & s' & E' & Hsp' & Hlog').
    { rewrite Hsp1, Hsame. exact Hfast. }
    { exact Hlog1. }
    { intros k Hk. apply Hdraws. rewrite Hrc1 in Hk. cbn in Hk. lia. }
    exists v', s'. split; [exact E'|]. split; [congruence | exact Hlog'].
Qed.

(** In a range of draws, either none is a slowdown or one can be named. *)
Lemma slowdown_search (n : nat) :
  forall c,
    (forall k, (c <= k < c + n)%nat -> random k <= 0.995)
    \/ (exists k, (c <= k < c + n)%nat /\ 0.995 < random k).
Proof.
  induction n as [|n IH]; intros c.
  - left. intros k Hk. lia.
  - destruct (Qlt_le_dec 0.995 (random c)) as [Hslow|Hok].
    + right. exists c. split; [lia | exact Hslow].
    + destruct (IH (S c)) as [Hall|(k & Hk & Hslow)].
      * left. intros k Hk.
        destruct (Nat.eq_dec k c) as [->|Hne]; [exact Hok|].
        apply Hall. lia.
      * right. exists k. split; [lia | exact Hslow].
Qed.

(** C10, amended.  With draws in [0,1), a vehicle that the generator returns
    has a speed of at least 0.3, above the threshold 0.2, so the stall rule
    does not match it as spawned.  Follow it through any number of ticks,
    the first being the tick of its spawn, from a log without stall alerts:
    the ticks return, and if the log then holds a stall alert, one of the
    slowdown draws of these ticks was above 0.995, so the vehicle has been
    slowed down at least once. *)
Theorem stall_alert_needs_a_slowdown :
  forall s v s1,
    spawnVehicle random s = Some (v, s1) ->
    0.3 <= Vehicle.speed v
    /\ 0.2 < Vehicle.speed v
    /\ stallRule v = false
    /\ forall n s2,
         noWarning (aiInsights s2) ->
         exists v' s',
           vehicleTicks random clock toLocaleTimeString n v s2 = Some (v', s')
           /\ ((exists a, In a (aiInsights s') /\ AIInsight.type a = Warning) ->
               exists k,
                 (randomCalls s2 <= k < randomCalls s2 + n)%nat
                 /\ 0.995 < random k).
Proof.
  intros s v s1 Hsp.
  assert (Hspeed : 0.3 <= Vehicle.speed v).
  { destruct (spawnVehicle_spec s) as (type & color & _ & H).
    rewrite H in Hsp. inversion Hsp; subst. apply spawned_speed. }
  split; [exact Hspeed|]. split; [lra|].
  split.
  { unfold stallRule. apply andb_false_iff. left. apply Qltb_ge. lra. }
  intros n s2 Hlog.
  destruct (slowdown_search n (randomCalls s2)) as [Hnone|Hsome].
  - destruct (ticks_without_slowdown n v s2) as (v' & s' & E & _ & Hlog');
      [lra | exact Hlog | exact Hnone |].
    exists v', s'. split; [exact E|].
    intros (a & Hin & Hwarn). exfalso.
    unfold noWarning in Hlog'. rewrite Forall_forall in Hlog'.
    exact (Hlog' a Hin Hwarn).
  - destruct (vehicleTicks_returns n v s2) as (v' & s' & E).
    exists v', s'. split; [exact E|]. intros _. exact Hsome.
Qed.

(** ** Camera zones *)

Lemma Qgeb_ge (a b : Q) : Qgeb a b = true <-> b <= a.
Proof. unfold Qgeb. apply Qle_bool_iff. Qed.

Lemma isInActiveZone_true (z : Z) (v : Vehicle.t) :
  isInActiveZone z v = true
  <-> (inject_Z z - 1) * 25 <= Vehicle.position v
      /\ Vehicle.position v < inject_Z z * 25.
Proof.
  unfold isInActiveZone. rewrite andb_true_iff, Qgeb_ge, Qltb_lt.
  reflexivity.
Qed.

(** An integer between two consecutive integers, seen as rationals. *)
Lemma between_consecutive (z k : Z) :
  inject_Z k - 1 < inject_Z z -> inject_Z z < inject_Z k + 1 -> z = k.
Proof.
  intros Hlo Hhi.
  assert (H1 : (k - 1 < z)%Z).
  { rewrite Zlt_Qlt. unfold Zminus. rewrite inject_Z_plus.
    change (inject_Z (- (1))) with (- (1)). lra. }
  assert (H2 : (z < k + 1)%Z).
  { rewrite Zlt_Qlt. rewrite inject_Z_plus. change (inject_Z 1) with 1. lra. }
  lia.
Qed.

(** The band of a position inside the tunnel: the number of the only camera
    button under which a vehicle at that position is in the active zone. *)
Lemma band_of_position (p : Q) :
  0 <= p -> p < 100 ->
  exists z,
    In z cameraButtons
    /\ (inject_Z z - 1) * 25 <= p /\ p < inject_Z z * 25
    /\ getCameraZoneForPosition p = cameraButtonLabel z.
Proof.
  intros H0 H100. unfold getCameraZoneForPosition.
  destruct (Qltb p 25) eqn:E1.
  { apply Qltb_lt in E1. exists 1%Z. cbn. repeat split; auto; lra. }
  apply Qltb_ge in E1.
  destruct (Qltb p 50) eqn:E2.
  { apply Qltb_lt in E2. exists 2%Z. cbn. repeat split; auto; lra. }
  apply Qltb_ge in E2.
  destruct (Qltb p 75) eqn:E3.
  { apply Qltb_lt in E3. exists 3%Z. cbn. repeat split; auto; lra. }
  apply Qltb_ge in E3.
  exists 4%Z. cbn. repeat split; auto; lra.
Qed.

(** X1. For a vehicle inside the tunnel, exactly one camera number puts it
    in the active zone; that number is one of the four camera buttons, the
    zone that the detector writes into an alert for the vehicle's position
    is the label of that button, and it is the id of the camera whose
    indicator is lit when that button is pressed. *)
Theorem alert_zone_is_the_camera_that_shows_the_vehicle :
  forall v,
    0 <= Vehicle.position v -> Vehicle.position v < 100 ->
    exists z,
      In z cameraButtons
      /\ (forall z', isInActiveZone z' v = true <-> z' = z)
      /\ getCameraZoneForPosition (Vehicle.position v) = cameraButtonLabel z
      /\ exists idx cam,
           nth_error cameraZones idx = Some cam
           /\ indicatorLit z idx = true
           /\ CameraZone.id cam
              = getCameraZoneForPosition (Vehicle.position v).
Proof.
  intros v H0 H100.
  destruct (band_of_position _ H0 H100) as (z & Hz & Hlo & Hhi & Hlabel).
  exists z. split; [exact Hz|].
  split.
  { intros z'. rewrite isInActiveZone_true. split.
    - intros [Hlo' Hhi']. apply between_consecutive; lra.
    - intros ->. split; assumption. }
  split; [exact Hlabel|].
  rewrite Hlabel.
  cbn in Hz. destruct Hz as [<-|[<-|[<-|[<-|[]]]]].
  - exists 0%nat. eexists. repeat split.
  - exists 1%nat. eexists. repeat split.
  - exists 2%nat. eexists. repeat split.
  - exists 3%nat. eexists. repeat split.
Qed.

(** X2. The zone lookup answers for every position, with the id of one of
    the four cameras.  Outside the tunnel it answers the first camera below
    0 and the last camera from 100 on, while no camera button puts such a
    vehicle in the active zone. *)
Theorem zone_lookup_outside_the_tunnel :
  forall v,
    In (getCameraZoneForPosition (Vehicle.position v))
       (map CameraZone.id cameraZones)
    /\ (Vehicle.position v < 0 ->
        getCameraZoneForPosition (Vehicle.position v) = "CAM-01"%string
        /\ forall z, In z cameraButtons -> isInActiveZone z v = false)
    /\ (100 <= Vehicle.position v ->
        getCameraZoneForPosition (Vehicle.position v) = "CAM-04"%string
        /\ forall z, In z cameraButtons -> isInActiveZone z v = false).
Proof.
  intros v. set (p := Vehicle.position v).
  assert (Hnot : forall z, In z cameraButtons ->
                   (p < 0 \/ 100 <= p) -> isInActiveZone z v = false).
  { intros z Hz Hout. destruct (isInActiveZone z v) eqn:E; [|reflexivity].
    apply isInActiveZone_true in E. fold p in E. destruct E as [Hlo Hhi].
    exfalso. cbn in Hz.
    destruct Hz as [<-|[<-|[<-|[<-|[]]]]]; unfold inject_Z in Hlo, Hhi;
      destruct Hout; lra. }
  split.
  { unfold getCameraZoneForPosition.
    destruct (Qltb p 25); [cbn; auto|].
    destruct (Qltb p 50); [cbn; auto|].
    destruct (Qltb p 75); cbn; auto. }
  split.
  - intros Hneg. split; [|intros z Hz; apply Hnot; auto].
    unfold getCameraZoneForPosition.
    assert (E : Qltb p 25 = true) by (apply Qltb_lt; lra).
    rewrite E. reflexivity.
  - intros Hout. split; [|intros z Hz; apply Hnot; auto].
    unfold getCameraZoneForPosition.
    assert (E1 : Qltb p 25 = false) by (apply Qltb_ge; lra).
    assert (E2 : Qltb p 50 = false) by (apply Qltb_ge; lra).
    assert (E3 : Qltb p 75 = false) by (apply Qltb_ge; lra).
    rewrite E1, E2, E3. reflexivity.
Qed.

(** ** The generator and the spawn step, field by field *)

Lemma arrayGet_In {A : Type} (arr : list A) (i : Z) (a : A) :
  arrayGet arr i = Some a -> In a arr.
Proof.
  unfold arrayGet. destruct (i <? 0)%Z; [discriminate|].
  apply nth_error_In.
Qed.

Lemma spawnVehicle_full (s : State) :
  exists type color,
    arrayGet vehicleTypes (Qfloor (random (randomCalls s) * 5)) = Some type
    /\ arrayGet colors (Qfloor (random (S (S (S (randomCalls s)))) * 5))
       = Some color
    /\ spawnVehicle random s
       = Some (spawned random s type color,
               with_randomCalls (5 + randomCalls s)
                 (with_vehicleIdCounter (vehicleIdCounter s + 1)%Z s)).
Proof.
  destruct (random_range (randomCalls s)) as [Ha0 Ha1].
  destruct (random_range (S (S (S (randomCalls s))))) as [Hc0 Hc1].
  unfold spawnVehicle.
  unfold bind at 1. unfold Math_random at 1.
  unfold bind at 1.
  destruct (readArray_in_range vehicleTypes (random (randomCalls s))
              (with_randomCalls (S (randomCalls s)) s))
    as (type & Htype & Hread); try assumption; [discriminate|].
  cbn [randomCalls with_randomCalls] in Hread |- *.
  rewrite Hread.
  unfold bind at 1. unfold nextVehicleId at 1.
  do 3 (unfold bind at 1; unfold Math_random at 1).
  unfold bind at 1. cbn [randomCalls with_randomCalls with_vehicleIdCounter].
  match goal with
  | |- context [readArray colors ?i ?st] =>
      destruct (readArray_in_range colors
                  (random (S (S (S (randomCalls s))))) st)
        as (color & Hcolor & Hcol); try assumption; [discriminate|]
  end.
  rewrite Hcol.
  unfold bind at 1. unfold Math_random at 1.
  exists type, color. split; [exact Htype|]. split; [exact Hcolor|].
  reflexivity.
Qed.

Lemma spawned_wellFormed_fields (s : State) (type : VehicleType)
    (color : string) :
  In type vehicleTypes -> In color colors ->
  (0 <= Vehicle.lane (spawned random s type color) <= 2)%Z
  /\ Vehicle.position (spawned random s type color) = 0
  /\ 0.3 <= Vehicle.speed (spawned random s type color)
  /\ Vehicle.speed (spawned random s type color) < 0.8
  /\ 20 <= Vehicle.temperature (spawned random s type color)
  /\ Vehicle.temperature (spawned random s type color) < 35
  /\ Vehicle.type (spawned random s type color) <> Emergency
  /\ In (Vehicle.color (spawned random s type color)) colors.
Proof.
  intros Htype Hcolor.
  destruct (random_range (S (randomCalls s))) as [Hl0 Hl1].
  destruct (random_range (S (S (randomCalls s)))) as [Hs0 Hs1].
  destruct (random_range (S (S (S (S (randomCalls s)))))) as [Ht0 Ht1].
  cbn [spawned Vehicle.lane Vehicle.position Vehicle.speed Vehicle.temperature
       Vehicle.type Vehicle.color].
  split.
  { pose proof (floor_index_range (random (S (randomCalls s))) 3
                  ltac:(lia) Hl0 Hl1) as H.
    change (inject_Z 3) with 3 in H. lia. }
  split; [reflexivity|].
  split; [destruct (isTruck type); lra|].
  split; [destruct (isTruck type); lra|].
  split; [lra|]. split; [lra|].
  split; [|exact Hcolor].
  cbn in Htype. intuition congruence.
Qed.

(** X3. With draws in [0,1) the generator returns a vehicle in lane 0, 1 or
    2, with a temperature from 20 to 35 and a colour of the palette; its id is
    [V-] followed by the counter, and the counter goes up by one. *)
Theorem spawned_vehicle_lane_temperature_and_id :
  forall s, exists v s',
    spawnVehicle random s = Some (v, s')
    /\ (0 <= Vehicle.lane v <= 2)%Z
    /\ 20 <= Vehicle.temperature v /\ Vehicle.temperature v <= 35
    /\ In (Vehicle.color v) colors
    /\ Vehicle.id v = ("V-" ++ showZ (vehicleIdCounter s))%string
    /\ vehicleIdCounter s' = (vehicleIdCounter s + 1)%Z.
Proof.
  intros s.
  destruct (spawnVehicle_full s) as (type & color & Htype & Hcolor & Hrun).
  apply arrayGet_In in Htype. apply arrayGet_In in Hcolor.
  destruct (spawned_wellFormed_fields s type color Htype Hcolor)
    as (Hlane & _ & _ & _ & Ht0 & Ht1 & _ & Hcol).
  eexists. eexists. split; [exact Hrun|].
  split; [exact Hlane|]. split; [exact Ht0|].
  split; [apply Qlt_le_weak; exact Ht1|].
  split; [exact Hcol|]. split; reflexivity.
Qed.

(** The two ways through the spawn step. *)
Lemma spawnPeriodically_cases (timestamp : Q) (s : State) :
  exists type color,
    In type vehicleTypes /\ In color colors
    /\ spawnPeriodically random timestamp s
       = Some (tt,
               if Qgtb (timestamp - lastSpawnTime s)
                       (2000 + random (randomCalls s) * 2000)
               then afterSpawn random timestamp s type color
               else with_randomCalls (S (randomCalls s)) s).
Proof.
  destruct (spawnVehicle_full (with_randomCalls (S (randomCalls s)) s))
    as (type & color & Htype & Hcolor & Hsp).
  exists type, color.
  split; [eapply arrayGet_In; exact Htype|].
  split; [eapply arrayGet_In; exact Hcolor|].
  unfold spawnPeriodically. unfold bind at 1. cbn [get].
  unfold bind at 1. unfold Math_random at 1.
  destruct (Qgtb (timestamp - lastSpawnTime s)
                 (2000 + random (randomCalls s) * 2000)).
  - unfold bind at 1. rewrite Hsp. reflexivity.
  - reflexivity.
Qed.

Lemma updateVehicles_count (s : State) :
  exists s',
    updateVehicles random clock toLocaleTimeString s = Some (tt, s')
    /\ vehicles s'
       = map flagged
           (filter inTunnel (movedFrom random (randomCalls s) (vehicles s)))
    /\ vehicleCount s' = Z.of_nat (List.length (vehicles s')).
Proof.
  unfold updateVehicles. unfold bind at 1. cbn [get].
  unfold bind at 1. rewrite mapM_moveVehicle.
  unfold bind at 1. unfold detectIncidents.
  destruct (forEach_detectVehicle
              (filter inTunnel (movedFrom random (randomCalls s) (vehicles s)))
              (with_randomCalls (randomCalls s + List.length (vehicles s)) s))
    as [s1 H1].
  rewrite H1. eexists. split; [reflexivity|]. split; reflexivity.
Qed.

Lemma after_spawn_step_kept (c : Z) (l t : Q) (b : bool) :
  preserves (fun x => vehicleIdCounter x = c /\ lastSpawnTime x = l
                      /\ simulationTime x = t /\ isRunning x = b)
    (updateVehicles random clock toLocaleTimeString ;; updateSensors random).
Proof. preserves_auto; cbn; auto. Qed.

Lemma updateSensors_keeps_count (L : list Vehicle.t) (n : Z) :
  preserves (fun x => vehicles x = L /\ vehicleCount x = n)
    (updateSensors random).
Proof. preserves_auto; cbn; auto. Qed.

(** What one frame of a running clock leaves in the state. *)
Lemma animate_frame (timestamp : Q) (s s' : State) :
  isRunning s = true ->
  animate random clock toLocaleTimeString timestamp s = Some (tt, s') ->
  exists s1,
    spawnPeriodically random timestamp s = Some (tt, s1)
    /\ vehicles s'
       = map flagged
           (filter inTunnel (movedFrom random (randomCalls s1) (vehicles s1)))
    /\ vehicleCount s' = Z.of_nat (List.length (vehicles s'))
    /\ vehicleIdCounter s' = vehicleIdCounter s1
    /\ lastSpawnTime s' = lastSpawnTime s1
    /\ simulationTime s' = simulationTime s + 0.1
    /\ isRunning s' = true.
Proof.
  intros Hrun H.
  destruct (animate_running _ _ _ Hrun H) as (s1 & s2 & s3 & P1 & P2 & P3 & ->).
  exists s1. split; [exact P1|].
  destruct (updateVehicles_count s1) as (s2' & P2' & Hv & Hc).
  rewrite P2 in P2'. inversion P2'; subst s2'.
  destruct (updateSensors_keeps_count (vehicles s2) (vehicleCount s2)
              s2 tt s3 (conj eq_refl eq_refl) P3) as [Kv Kc].
  destruct (after_spawn_step_kept (vehicleIdCounter s1) (lastSpawnTime s1)
              (simulationTime s1) (isRunning s1) s1 tt s3) as (Kid & Kl & Kt & Kr).
  { repeat split. }
  { unfold bind. rewrite P2. exact P3. }
  assert (Hs1 : simulationTime s1 = simulationTime s /\ isRunning s1 = isRunning s).
  { destruct (spawnPeriodically_cases timestamp s) as (ty & col & _ & _ & E).
    rewrite P1 in E. inversion E.
    destruct (Qgtb (timestamp - lastSpawnTime s)
                   (2000 + random (randomCalls s) * 2000)); split; reflexivity. }
  destruct Hs1 as [Ht1 Hr1].
  cbn [vehicles vehicleCount vehicleIdCounter lastSpawnTime simulationTime
       isRunning with_simulationTime].
  rewrite Kv, Kc, Kid, Kl, Kt, Kr, Ht1, Hr1.
  repeat split; assumption.
Qed.

(** ** Vehicle ids *)

Lemma showZ_inj (a b : Z) : showZ a = showZ b -> a = b.
Proof.
  unfold showZ. intros H.
  assert (Hparse : forall z,
            NilZero.int_of_string (NilZero.string_of_int (Z.to_int z))
            = Some (Z.to_int z)).
  { intros z. apply NilZero.isi; destruct z; cbn; try discriminate;
      intros E; injection E as E;
      exact (DecimalPos.Unsigned.to_uint_nonnil _ E). }
  apply DecimalZ.to_int_inj.
  pose proof (Hparse a) as Ha. rewrite H, Hparse in Ha. congruence.
Qed.

Lemma vehicleId_inj (a b : Z) :
  ("V-" ++ showZ a)%string = ("V-" ++ showZ b)%string -> a = b.
Proof. cbn. intros H. injection H as H. apply showZ_inj. exact H. Qed.

Lemma idsWithin_weaken (vs : list Vehicle.t) :
  forall lo lo' hi hi',
    (lo' <= lo)%Z -> (hi <= hi')%Z ->
    idsWithin lo hi vs -> idsWithin lo' hi' vs.
Proof.
  induction vs as [|v rest IH]; intros lo lo' hi hi' Hlo Hhi H; cbn in *.
  - exact I.
  - destruct H as (k & Hk & Hid & Hrest).
    exists k. split; [lia|]. split; [exact Hid|].
    apply (IH (k + 1)%Z (k + 1)%Z hi hi'); [lia | exact Hhi | exact Hrest].
Qed.

Lemma idsWithin_app_last (vs : list Vehicle.t) (v : Vehicle.t) :
  forall lo hi,
    (lo <= hi)%Z ->
    idsWithin lo hi vs ->
    Vehicle.id v = ("V-" ++ showZ hi)%string ->
    idsWithin lo (hi + 1) (vs ++ [v]).
Proof.
  induction vs as [|w rest IH]; intros lo hi Hle H Hid; cbn in *.
  - exists hi. split; [lia|]. split; [exact Hid | exact I].
  - destruct H as (k & Hk & Hw & Hrest).
    exists k. split; [lia|]. split; [exact Hw|].
    apply IH; [lia | exact Hrest | exact Hid].
Qed.

Lemma idsWithin_survivors (vs : list Vehicle.t) :
  forall lo hi k,
    idsWithin lo hi vs ->
    idsWithin lo hi (map flagged (filter inTunnel (movedFrom random k vs))).
Proof.
  induction vs as [|v rest IH]; intros lo hi k H; cbn [movedFrom filter map].
  - exact I.
  - cbn in H. destruct H as (n & Hn & Hid & Hrest).
    destruct (inTunnel (moved (random k) v)); cbn [map].
    + cbn [idsWithin]. exists n. split; [exact Hn|].
      split; [rewrite flagged_id; exact Hid|]. apply IH. exact Hrest.
    + apply (idsWithin_weaken _ (n + 1)%Z lo hi hi); [lia | lia|].
      apply IH. exact Hrest.
Qed.

Lemma idsWithin_In (vs : list Vehicle.t) :
  forall lo hi v,
    idsWithin lo hi vs -> In v vs ->
    exists k, (lo <= k < hi)%Z /\ Vehicle.id v = ("V-" ++ showZ k)%string.
Proof.
  induction vs as [|w rest IH]; intros lo hi v H Hin; cbn in *.
  - contradiction.
  - destruct H as (k & Hk & Hw & Hrest). destruct Hin as [->|Hin].
    + exists k. auto.
    + destruct (IH _ _ _ Hrest Hin) as (k' & Hk' & Hv).
      exists k'. split; [lia | exact Hv].
Qed.

Lemma idsWithin_NoDup (vs : list Vehicle.t) :
  forall lo hi, idsWithin lo hi vs -> NoDup (map Vehicle.id vs).
Proof.
  induction vs as [|v rest IH]; intros lo hi H; cbn in *.
  - constructor.
  - destruct H as (k & Hk & Hid & Hrest). constructor.
    + intros Hin. apply in_map_iff in Hin. destruct Hin as (w & Hw & Hin).
      destruct (idsWithin_In _ _ _ _ Hrest Hin) as (k' & Hk' & Hwid).
      rewrite Hid, Hwid in Hw. apply vehicleId_inj in Hw. lia.
    + eapply IH. exact Hrest.
Qed.

Lemma handle_keeps_ids (e : Event) :
  preserves (fun s => (0 <= vehicleIdCounter s)%Z
                      /\ idsWithin 0 (vehicleIdCounter s) (vehicles s))
    (handle random clock toLocaleTimeString e).
Proof.
  destruct e;
    [ | preserves_auto; cbn; auto
      | intros s a s' _ H; inversion H; cbn; split; [lia | exact I]
      | preserves_auto; cbn; auto
      | preserves_auto; cbn; auto ].
  intros s a s' [Hc Hs] H. cbn [handle] in H. destruct a.
  destruct (isRunning s) eqn:Hrun.
  - destruct (animate_frame _ _ _ Hrun H)
      as (s1 & P1 & Hv & _ & Hid & _).
    rewrite Hv, Hid.
    assert (H1 : (0 <= vehicleIdCounter s1)%Z
                 /\ idsWithin 0 (vehicleIdCounter s1) (vehicles s1)).
    { destruct (spawnPeriodically_cases timestamp s) as (ty & col & _ & _ & E).
      rewrite P1 in E. inversion E as [E1]. clear E E1.
      destruct (Qgtb (timestamp - lastSpawnTime s)
                     (2000 + random (randomCalls s) * 2000)).
      - unfold afterSpawn.
        cbn [vehicleIdCounter vehicles with_lastSpawnTime with_vehicles
             with_randomCalls with_vehicleIdCounter].
        split; [lia|]. apply idsWithin_app_last; [exact Hc | exact Hs|].
        reflexivity.
      - cbn. auto. }
    destruct H1 as [Hc1 Hs1]. split; [exact Hc1|].
    apply idsWithin_survivors. exact Hs1.
  - rewrite animate_stopped in H by exact Hrun. inversion H; subst. auto.
Qed.

(** X4. In every reachable state the live vehicles have pairwise distinct
    ids, each of the form [V-k] for a [k] below the id counter, in growing
    order of [k] along the list. *)
Theorem vehicle_ids_are_distinct :
  forall s,
    reachable random clock toLocaleTimeString s ->
    NoDup (map Vehicle.id (vehicles s))
    /\ idsWithin 0 (vehicleIdCounter s) (vehicles s)
    /\ forall v, In v (vehicles s) ->
         exists k, (0 <= k < vehicleIdCounter s)%Z
                   /\ Vehicle.id v = ("V-" ++ showZ k)%string.
Proof.
  intros s Hs.
  assert (H : (0 <= vehicleIdCounter s)%Z
              /\ idsWithin 0 (vehicleIdCounter s) (vehicles s)).
  { revert s Hs. apply reachable_invariant.
    - cbn. split; [lia | exact I].
    - exact handle_keeps_ids. }
  destruct H as [_ H].
  split; [eapply idsWithin_NoDup; exact H|].
  split; [exact H|].
  intros v Hin. eapply idsWithin_In; eassumption.
Qed.

(** ** The vehicle count, the clock and the spawn timer *)

Lemma handle_keeps_count (e : Event) :
  preserves (fun s => vehicleCount s = Z.of_nat (List.length (vehicles s)))
    (handle random clock toLocaleTimeString e).
Proof.
  destruct e;
    [ | preserves_auto; cbn; auto
      | intros s a s' _ H; inversion H; reflexivity
      | preserves_auto; cbn; auto
      | preserves_auto; cbn; auto ].
  intros s a s' Hs H. cbn [handle] in H. destruct a.
  destruct (isRunning s) eqn:Hrun.
  - destruct (animate_frame _ _ _ Hrun H) as (s1 & _ & _ & Hc & _). exact Hc.
  - rewrite animate_stopped in H by exact Hrun. inversion H; subst. exact Hs.
Qed.

(** X5. In every reachable state the vehicle count shown in the metrics is
    the number of live vehicles. *)
Theorem vehicle_count_is_the_size_of_the_live_set :
  forall s,
    reachable random clock toLocaleTimeString s ->
    vehicleCount s = Z.of_nat (List.length (vehicles s)).
Proof.
  apply reachable_invariant.
  - reflexivity.
  - exact handle_keeps_count.
Qed.

(** X6. While the clock is stopped, any run of animation frames leaves the
    whole state as it is: no draw is consumed and nothing moves. *)
Theorem frames_of_a_stopped_clock_change_nothing :
  forall s timestamps,
    isRunning s = false ->
    handleAll random clock toLocaleTimeString (frames timestamps) s
    = Some (tt, s).
Proof.
  intros s timestamps Hstop.
  induction timestamps as [|t rest IH]; cbn [frames map handleAll].
  - reflexivity.
  - unfold bind. cbn [handle]. rewrite animate_stopped by exact Hstop.
    exact IH.
Qed.

(** X7. While the clock runs, every frame adds 0.1 to the elapsed time,
    whatever its timestamp: after n frames the elapsed time is the time
    before with 0.1 added n times, one addition per frame, and the clock
    still runs. *)
Theorem elapsed_time_counts_frames :
  forall timestamps s,
    isRunning s = true ->
    exists s',
      handleAll random clock toLocaleTimeString (frames timestamps) s
      = Some (tt, s')
      /\ simulationTime s'
         = Nat.iter (List.length timestamps) (fun prev => prev + 0.1)
             (simulationTime s)
      /\ isRunning s' = true.
Proof.
  induction timestamps as [|t rest IH]; intros s Hrun;
    cbn [frames map handleAll List.length].
  - exists s. split; [reflexivity|]. split; [reflexivity | exact Hrun].
  - unfold bind. cbn [handle].
    destruct (animate_returns t s) as ([] & s1 & E). rewrite E.
    destruct (animate_frame _ _ _ Hrun E) as (_ & _ & _ & _ & _ & _ & Ht & Hr).
    destruct (IH s1 Hr) as (s' & E' & Ht' & Hr').
    exists s'. split; [exact E'|]. split; [|exact Hr'].
    rewrite Ht', Ht, Nat.iter_succ_r. reflexivity.
Qed.

(** X8. A frame of a running clock returns, and spawns at most one vehicle.
    When it spawns none, the id counter and the spawn timer stay as they
    are and the motion update works on the live set alone.  When it spawns
    one, more than 2000 ms have passed since the last spawn, the vehicle
    that [spawnVehicle] returns is appended to the list that the motion
    update works on, and, advanced by its speed, it is the last vehicle of
    the new live set; the counter goes up by one and the spawn timer is
    set to the frame's timestamp.  With draws in [0,1) a frame spawns none
    when at most 2000 ms have passed, and one when more than 4000 ms
    have. *)
Theorem spawn_is_gated_by_the_timer :
  forall s timestamp,
    isRunning s = true ->
    exists s' entered,
      animate random clock toLocaleTimeString timestamp s = Some (tt, s')
      /\ Forall2 advanced (filter staysIn entered) (vehicles s')
      /\ ((entered = vehicles s
           /\ vehicleIdCounter s' = vehicleIdCounter s
           /\ lastSpawnTime s' = lastSpawnTime s)
          \/ (2000 < timestamp - lastSpawnTime s
              /\ vehicleIdCounter s' = (vehicleIdCounter s + 1)%Z
              /\ lastSpawnTime s' = timestamp
              /\ exists v s1 v' rest,
                   spawnVehicle random
                     (with_randomCalls (S (randomCalls s)) s)
                   = Some (v, s1)
                   /\ entered = vehicles s ++ [v]
                   /\ vehicles s' = rest ++ [v']
                   /\ advanced v v'))
      /\ (timestamp - lastSpawnTime s <= 2000 -> entered = vehicles s)
      /\ (4000 < timestamp - lastSpawnTime s ->
          List.length entered = S (List.length (vehicles s))).
Proof.
  intros s timestamp Hrun.
  destruct (animate_returns timestamp s) as ([] & s' & E).
  destruct (animate_frame _ _ _ Hrun E) as (s1 & P1 & Hv & _ & Hid & Hl & _).
  destruct (spawn_step_entered _ _ _ P1) as (Hent & Hno & Hyes).
  destruct (random_range (randomCalls s)) as [R0 R1].
  exists s', (vehicles s1). split; [exact E|].
  assert (Hadv : Forall2 advanced (filter staysIn (vehicles s1)) (vehicles s')).
  { rewrite Hv. apply survivors_advanced. }
  split; [exact Hadv|].
  rewrite Hid, Hl.
  destruct Hent as [[G Hsame]|(G & v & s0 & Hsp & Happ)].
  - destruct (Hno G) as [Hc Ht]. apply Qgtb_le in G.
    split; [left; auto|].
    split; [intros _; exact Hsame|].
    intros Hgap. exfalso. lra.
  - destruct (Hyes G) as [Hc Ht]. apply Qgtb_gt in G.
    split.
    + right. split; [lra|]. split; [exact Hc|]. split; [exact Ht|].
      assert (Hstay : staysIn v = true).
      { destruct (spawnVehicle_spec (with_randomCalls (S (randomCalls s)) s))
          as (type & color & _ & E0).
        rewrite E0 in Hsp. inversion Hsp; subst v.
        destruct (random_range (S (S (S (randomCalls s))))) as [S0 S1].
        unfold staysIn. apply Qltb_lt.
        cbn [spawned Vehicle.position Vehicle.speed randomCalls
             with_randomCalls].
        destruct (isTruck type); lra. }
      rewrite Happ in Hadv. rewrite filter_app in Hadv.
      cbn [filter] in Hadv. rewrite Hstay in Hadv.
      apply Forall2_app_inv_l in Hadv.
      destruct Hadv as (rest & lst & _ & Hlast & Hsplit).
      inversion Hlast as [|? v' ? l' Hvv' Hnil]; subst.
      inversion Hnil; subst.
      exists v, s0, v', rest. auto.
    + split; [intros Hgap; exfalso; lra|].
      intros _. rewrite Happ, length_app. cbn. lia.
Qed.

(** ** A pass of the detector over a list of vehicles *)

Lemma matchesRule_flagged (v : Vehicle.t) : matchesRule (flagged v) = false.
Proof.
  unfold flagged. destruct (stallRule v || heatRule v) eqn:E.
  - unfold matchesRule.
    rewrite (stallRule_detected (Vehicle.setDetected v) eq_refl).
    rewrite (heatRule_detected (Vehicle.setDetected v) eq_refl).
    reflexivity.
  - exact E.
Qed.

Lemma forEach_detectVehicle_silent (vs : list Vehicle.t) (s : State) :
  Forall (fun v => matchesRule v = false) vs ->
  forEach (detectVehicle clock toLocaleTimeString) vs s = Some (vs, s).
Proof.
  intros H. induction H as [|v rest Hv Hrest IH]; cbn [forEach].
  - reflexivity.
  - unfold matchesRule in Hv. apply orb_false_iff in Hv. destruct Hv as [Hs Hh].
    unfold bind at 1.
    destruct (detectVehicle_cases v s) as [[Hs' _]|[(_ & Hh' & _)|(_ & _ & E)]];
      try congruence.
    rewrite E. unfold bind at 1. rewrite IH. reflexivity.
Qed.

(** X9. A pass of the detector over any list of vehicles returns the list
    with the flag raised on the vehicles that match a rule, and writes one
    alert for each of them, in the order of the list: the warning with the
    stall message when the stall rule matches, otherwise the critical alert
    with the heat message, each with the zone of the vehicle's position.
    The log after the pass is the log before with these alerts appended one
    by one, and the clock has been read twice per alert. *)
Theorem detection_pass_writes_one_alert_per_match :
  forall vs s, exists s' alerts,
    detectIncidents clock toLocaleTimeString vs s = Some (map flagged vs, s')
    /\ Forall2 reports (filter matchesRule vs) alerts
    /\ aiInsights s'
       = fold_left (fun log a => pushInsight a log) alerts (aiInsights s)
    /\ clockCalls s' = (clockCalls s + 2 * List.length alerts)%nat
    /\ vehicles s' = vehicles s.
Proof.
  unfold detectIncidents.
  induction vs as [|v rest IH]; intros s; cbn [forEach map filter].
  - exists s, []. split; [reflexivity|]. split; [constructor|].
    split; [reflexivity|]. split; [cbn; lia | reflexivity].
  - unfold bind at 1. unfold matchesRule at 1. unfold flagged at 1.
    destruct (detectVehicle_cases v s) as [[Hs E]|[(Hs & Hh & E)|(Hs & Hh & E)]];
      rewrite E, Hs; try rewrite Hh; cbn [orb].
    + destruct (IH (stallEffect clock toLocaleTimeString v s))
        as (s' & alerts & E' & Hrep & Hlog & Hclock & Hveh).
      unfold bind at 1. rewrite E'.
      exists s', (stallInsight (clock (clockCalls s))
                    (toLocaleTimeString (clock (S (clockCalls s))))
                    (Vehicle.setDetected v) :: alerts).
      split; [reflexivity|].
      split; [constructor; [|exact Hrep]; unfold reports; rewrite Hs;
              repeat split|].
      split; [exact Hlog|].
      split; [rewrite Hclock; cbn; lia | exact Hveh].
    + destruct (IH (heatEffect clock toLocaleTimeString v s))
        as (s' & alerts & E' & Hrep & Hlog & Hclock & Hveh).
      unfold bind at 1. rewrite E'.
      exists s', (heatInsight (clock (clockCalls s))
                    (toLocaleTimeString (clock (S (clockCalls s))))
                    (Vehicle.setDetected v) :: alerts).
      split; [reflexivity|].
      split; [constructor; [|exact Hrep]; unfold reports; rewrite Hs;
              repeat split|].
      split; [exact Hlog|].
      split; [rewrite Hclock; cbn; lia | exact Hveh].
    + destruct (IH s) as (s' & alerts & E' & Hrep & Hlog & Hclock & Hveh).
      unfold bind at 1. rewrite E'.
      exists s', alerts. split; [reflexivity|]. auto.
Qed.

(** X10. A second pass of the detector over the vehicles that a pass
    returns is silent: it returns the same vehicles and leaves the state,
    the log and the incident flag included, as it is. *)
Theorem second_detection_pass_is_silent :
  forall vs s, exists vs' s',
    detectIncidents clock toLocaleTimeString vs s = Some (vs', s')
    /\ detectIncidents clock toLocaleTimeString vs' s' = Some (vs', s').
Proof.
  intros vs s. unfold detectIncidents.
  destruct (forEach_detectVehicle vs s) as [s' E].
  exists (map flagged vs), s'. split; [exact E|].
  apply forEach_detectVehicle_silent.
  apply Forall_forall. intros v' Hin. apply in_map_iff in Hin.
  destruct Hin as (v & <- & _). apply matchesRule_flagged.
Qed.

(** X11. After a pass of the detector the incident flag is up exactly when
    it was up before or the stall rule matched a vehicle of the list; a
    pass never lowers it. *)
Theorem incident_flag_after_a_pass :
  forall vs s, exists s',
    detectIncidents clock toLocaleTimeString vs s = Some (map flagged vs, s')
    /\ incidentDetected s' = incidentDetected s || existsb stallRule vs.
Proof.
  unfold detectIncidents.
  induction vs as [|v rest IH]; intros s; cbn [forEach map existsb].
  - exists s. split; [reflexivity|]. rewrite orb_false_r. reflexivity.
  - unfold bind at 1. unfold flagged at 1.
    destruct (detectVehicle_cases v s) as [[Hs E]|[(Hs & Hh & E)|(Hs & Hh & E)]];
      rewrite E, Hs; try rewrite Hh; cbn [orb].
    + destruct (IH (stallEffect clock toLocaleTimeString v s)) as (s' & E' & Hf).
      unfold bind at 1. rewrite E'. exists s'. split; [reflexivity|].
      rewrite Hf. cbn. rewrite orb_true_r. reflexivity.
    + destruct (IH (heatEffect clock toLocaleTimeString v s)) as (s' & E' & Hf).
      unfold bind at 1. rewrite E'. exists s'. split; [reflexivity|].
      rewrite Hf. reflexivity.
    + destruct (IH s) as (s' & E' & Hf).
      unfold bind at 1. rewrite E'. exists s'. split; [reflexivity|].
      exact Hf.
Qed.

(** ** What holds of every live vehicle and of every logged alert *)

(** The vehicles that the motion update of a frame works on: the live set
    of the state before, and the vehicle spawned in the frame, if any. *)
Lemma spawn_step_vehicles (timestamp : Q) (s s1 : State) (v : Vehicle.t) :
  spawnPeriodically random timestamp s = Some (tt, s1) ->
  In v (vehicles s1) ->
  In v (vehicles s)
  \/ exists s0 s0' type color,
       In type vehicleTypes /\ In color colors
       /\ v = spawned random s0 type color
       /\ spawnVehicle random s0 = Some (v, s0').
Proof.
  intros P1 Hin.
  destruct (spawnVehicle_full (with_randomCalls (S (randomCalls s)) s))
    as (type & color & Htype & Hcolor & Hsp).
  revert P1. unfold spawnPeriodically. unfold bind at 1. cbn [get].
  unfold bind at 1. unfold Math_random at 1.
  destruct (Qgtb (timestamp - lastSpawnTime s)
                 (2000 + random (randomCalls s) * 2000)).
  - unfold bind at 1. rewrite Hsp. intros P1. inversion P1; subst s1.
    cbn [vehicles with_lastSpawnTime with_vehicles] in Hin.
    apply in_app_iff in Hin. destruct Hin as [Hold|[<-|[]]]; [left; exact Hold|].
    right. eexists. eexists. exists type, color.
    split; [eapply arrayGet_In; exact Htype|].
    split; [eapply arrayGet_In; exact Hcolor|].
    split; [reflexivity | exact Hsp].
  - intros P1. inversion P1; subst s1. left. exact Hin.
Qed.

(** Every vehicle of the live set after a frame of a running clock is
    [flagged (moved r v)] for a vehicle [v] that the motion update worked
    on, and is inside the tunnel. *)
Lemma frame_vehicles (timestamp : Q) (s s' : State) (v' : Vehicle.t) :
  isRunning s = true ->
  animate random clock toLocaleTimeString timestamp s = Some (tt, s') ->
  In v' (vehicles s') ->
  exists v r,
    v' = flagged (moved r v)
    /\ inTunnel (moved r v) = true
    /\ (In v (vehicles s)
        \/ exists s0 s0' type color,
             In type vehicleTypes /\ In color colors
             /\ v = spawned random s0 type color
             /\ spawnVehicle random s0 = Some (v, s0')).
Proof.
  intros Hrun E Hin.
  destruct (animate_frame _ _ _ Hrun E) as (s1 & P1 & Hv & _).
  rewrite Hv in Hin. apply in_map_iff in Hin. destruct Hin as (m & <- & Hm).
  apply filter_In in Hm. destruct Hm as [Hm Htun].
  apply In_movedFrom in Hm. destruct Hm as (v & r & Hv0 & ->).
  exists v, r. split; [reflexivity|]. split; [exact Htun|].
  eapply spawn_step_vehicles; eassumption.
Qed.

(** X12. A frame of a running clock returns.  The new live set holds, in
    order, the vehicles that stay in the tunnel among those the motion
    update works on (the live set, followed by the vehicle spawned in this
    frame, if any), each next to itself with the same id, lane, type,
    colour and temperature; a flag that was up is still up. *)
Theorem frame_keeps_the_attributes_of_a_vehicle :
  forall s timestamp,
    isRunning s = true ->
    exists s' entered,
      animate random clock toLocaleTimeString timestamp s = Some (tt, s')
      /\ enteredInFrame random timestamp s entered
      /\ Forall2 keepsAttributes (filter staysIn entered) (vehicles s').
Proof.
  intros s timestamp Hrun.
  destruct (animate_returns timestamp s) as ([] & s' & E).
  destruct (animate_vehicles _ _ _ Hrun E) as (s1 & P1 & Hv).
  destruct (spawn_step_entered _ _ _ P1) as (Hent & _).
  exists s', (vehicles s1). split; [exact E|]. split; [exact Hent|].
  rewrite Hv. apply survivors_related.
  intros v r _. unfold keepsAttributes, flagged.
  destruct (stallRule (moved r v) || heatRule (moved r v));
    cbn; repeat split; auto.
Qed.

Lemma moved_wellFormed (r : Q) (v : Vehicle.t) :
  wellFormed v -> inTunnel (moved r v) = true ->
  wellFormed (flagged (moved r v)).
Proof.
  intros (Hlane & Hp0 & Hp1 & Hs0 & Hs1 & Ht0 & Ht1 & Hty & Hcol) Htun.
  apply Qltb_lt in Htun. cbn [moved Vehicle.position] in Htun.
  assert (Hsp : 0 <= Vehicle.speed (moved r v)
                /\ Vehicle.speed (moved r v) <= Vehicle.speed v)
    by (cbn [moved Vehicle.speed]; destruct (Qgtb r 0.995); split; lra).
  unfold wellFormed, flagged.
  destruct (stallRule (moved r v) || heatRule (moved r v));
    cbn [Vehicle.setDetected moved Vehicle.lane Vehicle.position Vehicle.speed
         Vehicle.temperature Vehicle.type Vehicle.color] in *;
    repeat split; try assumption; try apply Hlane; try lra;
    destruct Hsp as [Hsp0 Hsp1]; lra.
Qed.

Lemma handle_keeps_wellFormed (e : Event) :
  preserves (fun s => Forall wellFormed (vehicles s))
    (handle random clock toLocaleTimeString e).
Proof.
  destruct e; try (preserves_auto; cbn; auto; constructor).
  intros s a s' Hs H. cbn [handle] in H. destruct a.
  rewrite Forall_forall in Hs.
  destruct (isRunning s) eqn:Hrun.
  - apply Forall_forall. intros v' Hin.
    destruct (frame_vehicles _ _ _ _ Hrun H Hin) as (v & r & -> & Htun & Hfrom).
    apply moved_wellFormed; [|exact Htun].
    destruct Hfrom as [Hold|(s0 & s0' & ty & col & Hty & Hcol & -> & _)];
      [apply Hs; exact Hold|].
    destruct (spawned_wellFormed_fields s0 ty col Hty Hcol)
      as (Hlane & Hpos & Hs0 & Hs1 & Ht0 & Ht1 & Htype & Hc).
    unfold wellFormed. rewrite Hpos.
    repeat split; try assumption; try apply Hlane; lra.
  - rewrite animate_stopped in H by exact Hrun. inversion H; subst.
    apply Forall_forall. exact Hs.
Qed.

Lemma reachable_wellFormed (s : State) :
  reachable random clock toLocaleTimeString s ->
  Forall wellFormed (vehicles s).
Proof.
  revert s. apply reachable_invariant.
  - constructor.
  - exact handle_keeps_wellFormed.
Qed.

(** X13. With draws in [0,1), every live vehicle of a reachable state is in
    lane 0, 1 or 2, at a position in [0,100), with a speed that is not
    negative and is below 0.8, and a temperature from 20 to 35; it is a car
    or a truck, never an emergency vehicle, and its colour is one of the
    palette. *)
Theorem live_vehicles_are_well_formed :
  forall s v,
    reachable random clock toLocaleTimeString s ->
    In v (vehicles s) ->
    (0 <= Vehicle.lane v <= 2)%Z
    /\ 0 <= Vehicle.position v /\ Vehicle.position v < 100
    /\ 0 <= Vehicle.speed v /\ Vehicle.speed v < 0.8
    /\ 20 <= Vehicle.temperature v /\ Vehicle.temperature v <= 35
    /\ (Vehicle.type v = Car \/ Vehicle.type v = Truck)
    /\ In (Vehicle.color v) colors.
Proof.
  intros s v Hs Hin.
  pose proof (reachable_wellFormed s Hs) as H.
  rewrite Forall_forall in H.
  destruct (H v Hin) as (Hlane & Hp0 & Hp1 & Hs0 & Hs1 & Ht0 & Ht1 & Hty & Hcol).
  repeat split; try assumption; try apply Hlane.
  destruct (Vehicle.type v); auto. congruence.
Qed.

(** X15. With draws in [0,1), every live vehicle of a reachable state is
    drawn inside the tunnel box: its [left] is between 10 and 76.66 percent
    and its [top] is in [0,100) percent. *)
Theorem live_vehicles_are_drawn_inside_the_box :
  forall s v,
    reachable random clock toLocaleTimeString s ->
    In v (vehicles s) ->
    10 <= leftPercent v /\ leftPercent v <= 76.66
    /\ 0 <= topPercent v /\ topPercent v < 100.
Proof.
  intros s v Hs Hin.
  pose proof (reachable_wellFormed s Hs) as H.
  rewrite Forall_forall in H.
  destruct (H v Hin) as (Hlane & Hp0 & Hp1 & _).
  unfold leftPercent, laneOffset, topPercent.
  assert (Hl : Vehicle.lane v = 0%Z \/ Vehicle.lane v = 1%Z
               \/ Vehicle.lane v = 2%Z) by lia.
  destruct Hl as [-> | [-> | ->]]; unfold inject_Z; repeat split;
    try assumption; lra.
Qed.

Lemma handle_keeps_live_set_inspected (e : Event) :
  preserves (fun s => Forall (fun v => matchesRule v = false) (vehicles s))
    (handle random clock toLocaleTimeString e).
Proof.
  destruct e; try (preserves_auto; cbn; auto; constructor).
  intros s a s' Hs H. cbn [handle] in H. destruct a.
  destruct (isRunning s) eqn:Hrun.
  - destruct (animate_vehicles _ _ _ Hrun H) as (s1 & _ & Hv).
    rewrite Hv. apply Forall_forall. intros v' Hin.
    apply in_map_iff in Hin. destruct Hin as (m & <- & _).
    apply matchesRule_flagged.
  - rewrite animate_stopped in H by exact Hrun. inversion H; subst. exact Hs.
Qed.

(** X14. In every reachable state, a live vehicle that shows the speed
    indicator or the temperature indicator has its flag up, so a pass of
    the detector over the live set writes no alert and changes nothing. *)
Theorem vehicles_with_an_indicator_are_flagged :
  forall s,
    reachable random clock toLocaleTimeString s ->
    (forall v, In v (vehicles s) ->
       speedIndicator v = true \/ hotIndicator v = true ->
       Vehicle.detected v = true)
    /\ detectIncidents clock toLocaleTimeString (vehicles s) s
       = Some (vehicles s, s).
Proof.
  intros s Hs.
  assert (H : Forall (fun v => matchesRule v = false) (vehicles s)).
  { revert s Hs. apply reachable_invariant.
    - constructor.
    - exact handle_keeps_live_set_inspected. }
  split.
  - rewrite Forall_forall in H. intros v Hin Hind.
    specialize (H v Hin). unfold matchesRule, stallRule, heatRule in H.
    unfold speedIndicator, hotIndicator in Hind.
    destruct (Vehicle.detected v); [reflexivity|].
    cbn [negb] in H. rewrite !andb_true_r in H.
    apply orb_false_iff in H. destruct H as [H1 H2].
    destruct Hind; congruence.
  - unfold detectIncidents. apply forEach_detectVehicle_silent. exact H.
Qed.

Lemma zone_names_a_camera (p : Q) :
  In (getCameraZoneForPosition p) (map CameraZone.id cameraZones).
Proof.
  unfold getCameraZoneForPosition.
  destruct (Qltb p 25); [cbn; auto|].
  destruct (Qltb p 50); [cbn; auto|].
  destruct (Qltb p 75); cbn; auto.
Qed.

Lemma fromDetector_push (a : AIInsight.t) (log : list AIInsight.t) :
  fromDetector a -> Forall fromDetector log ->
  Forall fromDetector (pushInsight a log).
Proof.
  intros Ha Hlog. rewrite pushInsight_cons. constructor; [exact Ha|].
  apply Forall_firstn. exact Hlog.
Qed.

Lemma handle_keeps_log_fromDetector (e : Event) :
  preserves (fun s => Forall fromDetector (aiInsights s))
    (handle random clock toLocaleTimeString e).
Proof.
  destruct e; preserves_auto;
    cbn [aiInsights with_isRunning with_vehicles with_simulationTime
         with_vehicleCount with_airQuality with_temperature with_visibility
         with_activeCameraZone with_aiInsights with_incidentDetected
         with_lastSpawnTime with_vehicleIdCounter with_randomCalls
         with_clockCalls];
    try assumption; try (apply Forall_nil);
    apply fromDetector_push; try assumption;
    (split; [discriminate|]); eexists; (split; [reflexivity|]);
    apply zone_names_a_camera.
Qed.

(** X16. Every alert in the log of a reachable state is a warning or a
    critical alert, never an info alert, so its box is never the blue one;
    and it carries a zone, which is the id of one of the four cameras. *)
Theorem logged_alerts_come_from_the_detector :
  forall s a,
    reachable random clock toLocaleTimeString s ->
    In a (aiInsights s) ->
    (AIInsight.type a = Warning \/ AIInsight.type a = Critical)
    /\ insightBoxClass a <> "bg-blue-900/30 border-blue-500/50"%string
    /\ exists z, AIInsight.zone a = Some z
                 /\ In z (map CameraZone.id cameraZones).
Proof.
  intros s a Hs Hin.
  assert (H : Forall fromDetector (aiInsights s)).
  { clear Hin. revert s Hs. apply reachable_invariant.
    - constructor.
    - exact handle_keeps_log_fromDetector. }
  rewrite Forall_forall in H. destruct (H a Hin) as [Hty Hzone].
  unfold insightBoxClass.
  destruct (AIInsight.type a); try congruence;
    (split; [auto|]); (split; [discriminate | exact Hzone]).
Qed.

(** ** Computations that ignore a part of the state *)

Lemma ignores_ret {A : Type} (f : State -> State) (a : A) : ignores f (ret a).
Proof. intros s. reflexivity. Qed.

Lemma ignores_bind {A B : Type} (f : State -> State) (m : Sim A)
    (k : A -> Sim B) :
  ignores f m -> (forall a, ignores f (k a)) -> ignores f (bind m k).
Proof.
  intros Hm Hk s. unfold bind. rewrite Hm.
  destruct (m s) as [[a s1]|]; cbn [onState]; [apply Hk | reflexivity].
Qed.

Lemma ignores_state {A : Type} (f : State -> State) (g : State -> A)
    (h : State -> State) :
  (forall s, g (f s) = g s) -> (forall s, h (f s) = f (h s)) ->
  ignores f (fun s => Some (g s, h s)).
Proof. intros Hg Hh s. cbn [onState]. rewrite Hg, Hh. reflexivity. Qed.

Lemma ignores_modify (f h : State -> State) :
  (forall s, h (f s) = f (h s)) -> ignores f (modify h).
Proof. intros Hh s. unfold modify. cbn [onState]. rewrite Hh. reflexivity. Qed.

Lemma ignores_get_bind {B : Type} (f : State -> State) (k : State -> Sim B) :
  (forall s0 s, k (f s0) s = k s0 s) ->
  (forall s0, ignores f (k s0)) ->
  ignores f (bind get k).
Proof.
  intros Hsame Hk s. unfold bind, get. rewrite Hsame. apply Hk.
Qed.

Lemma ignores_readArray {A : Type} (f : State -> State) (arr : list A) (i : Z) :
  ignores f (readArray arr i).
Proof.
  unfold readArray. destruct (arrayGet arr i); intros s; reflexivity.
Qed.

Lemma ignores_forEach {A : Type} (f : State -> State) (g : A -> Sim A)
    (arr : list A) :
  (forall x, ignores f (g x)) -> ignores f (forEach g arr).
Proof.
  intros Hg. induction arr as [|x rest IH]; cbn [forEach].
  - apply ignores_ret.
  - apply ignores_bind; [apply Hg|]. intros x'.
    apply ignores_bind; [exact IH|]. intros rest'. apply ignores_ret.
Qed.

Lemma ignores_mapM {A B : Type} (f : State -> State) (g : A -> Sim B)
    (arr : list A) :
  (forall x, ignores f (g x)) -> ignores f (mapM g arr).
Proof.
  intros Hg. induction arr as [|x rest IH]; cbn [mapM].
  - apply ignores_ret.
  - apply ignores_bind; [apply Hg|]. intros y.
    apply ignores_bind; [exact IH|]. intros ys. apply ignores_ret.
Qed.

Ltac ignores_step :=
  lazymatch goal with
  | |- ignores _ (bind get _) =>
      apply ignores_get_bind; [intros ? ?; reflexivity | intro]
  | |- ignores _ (bind _ _) => apply ignores_bind; [|intro]
  | |- ignores _ (ret _) => apply ignores_ret
  | |- ignores _ (readArray _ _) => apply ignores_readArray
  | |- ignores _ (forEach _ _) => apply ignores_forEach; intro
  | |- ignores _ (mapM _ _) => apply ignores_mapM; intro
  | |- ignores _ (if ?c then _ else _) => destruct c
  | |- ignores _ (modify _) => apply ignores_modify; intro; reflexivity
  | |- ignores _ (let _ := _ in _) => cbv zeta
  | |- ignores _ (Math_random _) =>
      unfold Math_random; apply ignores_state; intro; reflexivity
  | |- ignores _ (readClock _) =>
      unfold readClock; apply ignores_state; intro; reflexivity
  | |- ignores _ nextVehicleId =>
      unfold nextVehicleId; apply ignores_state; intro; reflexivity
  end.

Lemma handle_ignores_camera (z : Z) (e : Event) :
  (forall z', e <> CameraClick z') ->
  ignores (with_activeCameraZone z) (handle random clock toLocaleTimeString e).
Proof.
  intros Hcam. destruct e; try (exfalso; eapply Hcam; reflexivity);
    unfold_program; repeat ignores_step.
Qed.

(** X17. Selecting a camera and any other event commute: a frame, a press
    of Start/Pause, Reset or Acknowledge gives the same result before and
    after the camera click, which changes the active camera zone and
    nothing else.  The simulation and the detector never read the active
    camera zone. *)
Theorem camera_selection_commutes_with_the_simulation :
  forall e z s,
    (forall z', e <> CameraClick z') ->
    (handle random clock toLocaleTimeString (CameraClick z) ;;
     handle random clock toLocaleTimeString e) s
    = (handle random clock toLocaleTimeString e ;;
       handle random clock toLocaleTimeString (CameraClick z)) s
    /\ handle random clock toLocaleTimeString e (with_activeCameraZone z s)
       = onState (with_activeCameraZone z)
           (handle random clock toLocaleTimeString e s).
Proof.
  intros e z s Hcam.
  pose proof (handle_ignores_camera z e Hcam s) as H.
  split; [|exact H].
  unfold bind at 1. cbn [handle]. unfold setActiveCameraZone, modify.
  rewrite H. unfold bind.
  destruct (handle random clock toLocaleTimeString e s) as [[[] s1]|];
    reflexivity.
Qed.

(** ** Slowdowns compound *)

Lemma detectVehicle_keeps_randomCalls (v : Vehicle.t) (c : nat) :
  preserves (fun s => randomCalls s = c)
    (detectVehicle clock toLocaleTimeString v).
Proof. preserves_auto; cbn; auto. Qed.

Lemma vehicleTick_spec (v : Vehicle.t) (s : State) :
  exists s1,
    vehicleTick random clock toLocaleTimeString v s
    = Some (flagged (moved (random (randomCalls s)) v), s1)
    /\ randomCalls s1 = S (randomCalls s).
Proof.
  unfold vehicleTick, bind, moveVehicle, Math_random, bind, ret.
  destruct (detectVehicle_returns (moved (random (randomCalls s)) v)
              (with_randomCalls (S (randomCalls s)) s)) as (v1 & s1 & E).
  exists s1. rewrite E.
  rewrite (detectVehicle_flagged _ _ _ _ E).
  split; [reflexivity|].
  eapply (detectVehicle_keeps_randomCalls _ (S (randomCalls s))); [|exact E].
  reflexivity.
Qed.

Lemma countSlowdowns_step (c n : nat) :
  countSlowdowns random c (S n)
  = ((if Qgtb (random c) 0.995 then 1 else 0)
     + countSlowdowns random (S c) n)%nat.
Proof.
  unfold countSlowdowns. cbn [seq filter].
  destruct (Qgtb (random c) 0.995); reflexivity.
Qed.

(** X18. Follow one vehicle through n ticks.  The ticks return; the speed
    afterwards is the speed before multiplied by 0.3 once for each slowdown
    draw among the n draws of these ticks, one multiplication after the
    other; and if the speed is not negative, it stays so and never grows,
    so a slowed vehicle never recovers, and the position never
    decreases. *)
Theorem slowdowns_compound :
  forall n v s, exists v' s',
    vehicleTicks random clock toLocaleTimeString n v s = Some (v', s')
    /\ Vehicle.speed v'
       = Nat.iter (countSlowdowns random (randomCalls s) n)
           (fun speed => speed * 0.3) (Vehicle.speed v)
    /\ (0 <= Vehicle.speed v ->
        0 <= Vehicle.speed v'
        /\ Vehicle.speed v' <= Vehicle.speed v
        /\ Vehicle.position v <= Vehicle.position v').
Proof.
  induction n as [|n IH]; intros v s; cbn [vehicleTicks].
  - exists v, s. split; [reflexivity|].
    split; [reflexivity|]. intros H0. repeat split; lra.
  - destruct (vehicleTick_spec v s) as (s1 & E1 & Hrc).
    unfold bind at 1. rewrite E1.
    set (r := random (randomCalls s)) in *.
    destruct (IH (flagged (moved r v)) s1) as (v' & s' & E' & Hsp & Hpos).
    exists v', s'. split; [exact E'|].
    rewrite flagged_speed in Hsp, Hpos. rewrite flagged_position in Hpos.
    rewrite Hrc in Hsp. rewrite countSlowdowns_step. fold r.
    cbn [moved Vehicle.speed Vehicle.position] in Hsp, Hpos.
    split.
    + rewrite Hsp. destruct (Qgtb r 0.995).
      * cbn [Nat.add]. rewrite Nat.iter_succ_r. reflexivity.
      * reflexivity.
    + intros H0.
      assert (Hstep : 0 <= (if Qgtb r 0.995
                            then Vehicle.speed v * 0.3 else Vehicle.speed v)
                      /\ (if Qgtb r 0.995
                          then Vehicle.speed v * 0.3 else Vehicle.speed v)
                         <= Vehicle.speed v).
      { destruct (Qgtb r 0.995); split; lra. }
      destruct Hstep as [Hs0 Hs1].
      destruct (Hpos Hs0) as (Hnn & Hle & Hp0).
      repeat split; lra.
Qed.

(** ** How far a frame moves the readings *)

Lemma clamp_step (lo hi x d c : Q) :
  lo <= x -> x <= hi -> - c <= d -> d <= c ->
  - c <= clamp lo hi (x + d) - x /\ clamp lo hi (x + d) - x <= c.
Proof.
  intros Hlo Hhi Hd0 Hd1. unfold clamp.
  destruct (Q.max_spec lo (Qmin hi (x + d))) as [[H1 E1]|[H1 E1]];
    destruct (Q.min_spec hi (x + d)) as [[H2 E2]|[H2 E2]];
    rewrite E1; try rewrite E2; try rewrite E2 in H1; split; lra.
Qed.

Lemma reachable_sensors_in_bounds (s : State) :
  reachable random clock toLocaleTimeString s -> sensorsInBounds s.
Proof.
  revert s. apply reachable_invariant.
  - unfold sensorsInBounds. cbn. repeat split; lra.
  - exact handle_keeps_sensors_in_bounds.
Qed.

(** X19. With draws in [0,1), a frame of a running clock in a reachable
    state moves the air quality by at most 1, the temperature by at most
    0.25 and the visibility by at most 0.5. *)
Theorem a_frame_moves_the_readings_by_a_bounded_step :
  forall s timestamp,
    reachable random clock toLocaleTimeString s ->
    isRunning s = true ->
    exists s',
      animate random clock toLocaleTimeString timestamp s = Some (tt, s')
      /\ (-1 <= airQuality s' - airQuality s
          /\ airQuality s' - airQuality s <= 1)
      /\ (-0.25 <= temperature s' - temperature s
          /\ temperature s' - temperature s <= 0.25)
      /\ (-0.5 <= visibility s' - visibility s
          /\ visibility s' - visibility s <= 0.5).
Proof.
  intros s timestamp Hs Hrun.
  destruct (reachable_sensors_in_bounds s Hs)
    as ((Ha0 & Ha1) & (Ht0 & Ht1) & (Hv0 & Hv1)).
  destruct (animate_returns timestamp s) as ([] & s' & E).
  exists s'. split; [exact E|].
  destruct (animate_running _ _ _ Hrun E) as (u1 & u2 & u3 & P1 & P2 & P3 & ->).
  assert (Hkept : airQuality u2 = airQuality s
                  /\ temperature u2 = temperature s
                  /\ visibility u2 = visibility s).
  { eapply (sensors_kept_until_update _ _ _ timestamp s tt u2).
    - repeat split.
    - unfold bind. rewrite P1. exact P2. }
  destruct Hkept as (Ka & Kt & Kv).
  destruct (updateSensors_spec u2) as (u3' & P3' & Qa & Qt & Qv).
  rewrite P3 in P3'. inversion P3'; subst u3'.
  destruct (random_range (randomCalls u2)) as [A0 A1].
  destruct (random_range (S (randomCalls u2))) as [B0 B1].
  destruct (random_range (S (S (randomCalls u2)))) as [C0 C1].
  cbn [airQuality temperature visibility with_simulationTime].
  rewrite Qa, Qt, Qv, Ka, Kt, Kv.
  split; [apply (clamp_step 70 100 _ _ 1); lra|].
  split; [apply (clamp_step 18 28 _ _ 0.25); lra|].
  apply (clamp_step 80 100 _ _ 0.5); lra.
Qed.

Lemma handle_keeps_ventilation (e : Event) :
  preserves (fun s => ventilationLevel s = 60)
    (handle random clock toLocaleTimeString e).
Proof. destruct e; preserves_auto; cbn; auto. Qed.

(** X20. The ventilation level is 60 in every reachable state: no event
    changes it. *)
Theorem ventilation_level_never_changes :
  forall s,
    reachable random clock toLocaleTimeString s -> ventilationLevel s = 60.
Proof.
  apply reachable_invariant.
  - reflexivity.
  - exact handle_keeps_ventilation.
Qed.

End Facts.

(** ** Concrete runs *)

Lemma evenDraws_range : unitRange evenDraws.
Proof. intros k. unfold evenDraws. split; lra. Qed.

Lemma spawnTickDraws_range : unitRange spawnTickDraws.
Proof.
  intros k. unfold spawnTickDraws.
  destruct k as [|[|[|[|[|[|[|k]]]]]]]; split; lra.
Qed.

(** C10, as stated, fails on the spawn tick.  The clock is started and the
    first frame comes at 5000 ms: the frame spawns the truck V-0 at speed
    0.3, its motion update slows the truck down to 0.09, and its detection
    pass logs the stall alert for it. *)
Lemma stall_alert_on_spawn_tick :
  unitRange spawnTickDraws
  /\ exists s0 s' v a,
       handle spawnTickDraws frozenClock plainTime StartPauseClick initialState
       = Some (tt, s0)
       /\ vehicles s0 = []
       /\ aiInsights s0 = []
       /\ animate spawnTickDraws frozenClock plainTime 5000 s0 = Some (tt, s')
       /\ vehicles s' = [v]
       /\ Vehicle.id v = "V-0"%string
       /\ Vehicle.type v = Truck
       /\ Vehicle.speed v == 0.09
       /\ Vehicle.detected v = true
       /\ aiInsights s' = [a]
       /\ AIInsight.type a = Warning
       /\ AIInsight.message a
          = "Slow/stopped truck detected in Lane 2 at 0%"%string.
Proof.
  split; [exact spawnTickDraws_range|].
  eexists. eexists. eexists. eexists.
  split; [reflexivity|]. split; [reflexivity|]. split; [reflexivity|].
  split; [vm_compute; reflexivity|].
  repeat split.
Qed.

(** The state after the Start button is pressed on the first render. *)
Lemma started_reachable :
  reachable evenDraws frozenClock plainTime (with_isRunning true initialState).
Proof. exists [StartPauseClick]. reflexivity. Defined.

(** C1 at a slow and hot car, on an empty log. *)
Lemma detection_emits_at_most_one_alert_witness :
  Vehicle.detected slowHotCar = false
  /\ aiInsights initialState = []
  /\ exists v' s',
       detectVehicle frozenClock plainTime slowHotCar initialState
       = Some (v', s')
       /\ (List.length (aiInsights s') <= 1)%nat
       /\ (Vehicle.speed slowHotCar < 0.2 ->
           exists a, aiInsights s' = [a] /\ AIInsight.type a = Warning
                     /\ Vehicle.detected v' = true)
       /\ (0.2 <= Vehicle.speed slowHotCar ->
           30 < Vehicle.temperature slowHotCar ->
           exists a, aiInsights s' = [a] /\ AIInsight.type a = Critical
                     /\ Vehicle.detected v' = true)
       /\ (0.2 <= Vehicle.speed slowHotCar ->
           Vehicle.temperature slowHotCar <= 30 ->
           aiInsights s' = [] /\ Vehicle.detected v' = false)
       /\ (Vehicle.detected v' = true ->
           forall n s1, exists v'' s'',
             vehicleTicks evenDraws frozenClock plainTime n v' s1
             = Some (v'', s'')
             /\ Vehicle.detected v'' = true
             /\ aiInsights s'' = aiInsights s1)
       /\ (forall w s1,
             Vehicle.detected w = true ->
             detectVehicle frozenClock plainTime w s1 = Some (w, s1)).
Proof.
  split; [reflexivity|]. split; [reflexivity|].
  apply (detection_emits_at_most_one_alert evenDraws frozenClock plainTime
           slowHotCar initialState); reflexivity.
Defined.

(** C3 at the first render. *)
Lemma alert_log_bounded_most_recent_first_witness :
  reachable evenDraws frozenClock plainTime initialState
  /\ (List.length (aiInsights initialState) <= 5)%nat
  /\ (forall a,
        pushInsight a (aiInsights initialState)
        = a :: firstn 4 (aiInsights initialState))
  /\ (forall alerts,
        fold_left (fun log a => pushInsight a log) alerts
          (aiInsights initialState)
        = firstn 5 (rev alerts ++ aiInsights initialState))
  /\ (forall A B C D E F,
        pushInsight F (pushInsight E (pushInsight D (pushInsight C
          (pushInsight B (pushInsight A (aiInsights initialState))))))
        = [F; E; D; C; B]).
Proof.
  assert (H : reachable evenDraws frozenClock plainTime initialState)
    by (exists []; reflexivity).
  split; [exact H|].
  apply (alert_log_bounded_most_recent_first evenDraws frozenClock plainTime
           initialState H).
Defined.

(** C7 at the started component: two frames, then a third. *)
Lemma sensors_stay_within_bounds_witness :
  unitRange evenDraws
  /\ airQuality (with_isRunning true initialState) = 85
  /\ temperature (with_isRunning true initialState) = 22
  /\ visibility (with_isRunning true initialState) = 95
  /\ exists s1 s2,
       handleAll evenDraws frozenClock plainTime (frames [16; 33])
         (with_isRunning true initialState)
       = Some (tt, s1)
       /\ handle evenDraws frozenClock plainTime (AnimationFrame 50) s1
          = Some (tt, s2)
       /\ sensorsInBounds s1
       /\ sensorsInBounds s2
       /\ (isRunning s1 = true ->
           exists d1 d2 d3,
             (-1 <= d1 /\ d1 < 1
              /\ airQuality s2 = clamp 70 100 (airQuality s1 + d1))
             /\ (-0.25 <= d2 /\ d2 < 0.25
                 /\ temperature s2 = clamp 18 28 (temperature s1 + d2))
             /\ (-0.5 <= d3 /\ d3 < 0.5
                 /\ visibility s2 = clamp 80 100 (visibility s1 + d3))).
Proof.
  split; [exact evenDraws_range|].
  split; [reflexivity|]. split; [reflexivity|]. split; [reflexivity|].
  apply (sensors_stay_within_bounds evenDraws frozenClock plainTime
           evenDraws_range (with_isRunning true initialState)
           eq_refl eq_refl eq_refl [16; 33] 50).
Defined.

(** C8, amended, at the started component, for the frame at 5000 ms, which
    spawns the first vehicle. *)
Lemma positions_never_decrease_witness :
  unitRange evenDraws
  /\ reachable evenDraws frozenClock plainTime
       (with_isRunning true initialState)
  /\ isRunning (with_isRunning true initialState) = true
  /\ exists s' entered,
       animate evenDraws frozenClock plainTime 5000
         (with_isRunning true initialState)
       = Some (tt, s')
       /\ enteredInFrame evenDraws 5000 (with_isRunning true initialState)
            entered
       /\ Forall2 steppedForward (filter staysIn entered) (vehicles s').
Proof.
  split; [exact evenDraws_range|].
  split; [exact started_reachable|].
  split; [reflexivity|].
  apply (positions_never_decrease evenDraws frozenClock plainTime
           evenDraws_range (with_isRunning true initialState) 5000
           started_reachable eq_refl).
Defined.

(** C9, amended, at the first render, with every draw at 1/2. *)
Lemma spawned_vehicle_type_speed_and_start_witness :
  unitRange evenDraws
  /\ exists v s',
       spawnVehicle evenDraws initialState = Some (v, s')
       /\ arrayGet vehicleTypes
            (Qfloor (evenDraws (randomCalls initialState) * 5))
          = Some (Vehicle.type v)
       /\ List.length vehicleTypes = 5%nat
       /\ count_occ VehicleType_eq_dec vehicleTypes Car = 4%nat
       /\ count_occ VehicleType_eq_dec vehicleTypes Truck = 1%nat
       /\ count_occ VehicleType_eq_dec vehicleTypes Emergency = 0%nat
       /\ (Vehicle.type v = Car \/ Vehicle.type v = Truck)
       /\ Vehicle.type v <> Emergency
       /\ (Vehicle.type v = Truck <->
           0.6 <= evenDraws (randomCalls initialState)
           /\ evenDraws (randomCalls initialState) < 0.8)
       /\ (Vehicle.type v = Truck ->
           0.3 <= Vehicle.speed v /\ Vehicle.speed v <= 0.5)
       /\ (Vehicle.type v = Car ->
           0.5 <= Vehicle.speed v /\ Vehicle.speed v < 0.8)
       /\ Vehicle.position v = 0
       /\ Vehicle.detected v = false.
Proof.
  split; [exact evenDraws_range|].
  apply (spawned_vehicle_type_speed_and_start evenDraws evenDraws_range
           initialState).
Defined.

(** C10, amended, at the vehicle spawned on the first render with every
    draw at 1/2. *)
Lemma stall_alert_needs_a_slowdown_witness :
  unitRange evenDraws
  /\ exists v s1,
       spawnVehicle evenDraws initialState = Some (v, s1)
       /\ 0.3 <= Vehicle.speed v
       /\ 0.2 < Vehicle.speed v
       /\ stallRule v = false
       /\ forall n s2,
            noWarning (aiInsights s2) ->
            exists v' s',
              vehicleTicks evenDraws frozenClock plainTime n v s2
              = Some (v', s')
              /\ ((exists a, In a (aiInsights s')
                             /\ AIInsight.type a = Warning) ->
                  exists k,
                    (randomCalls s2 <= k < randomCalls s2 + n)%nat
                    /\ 0.995 < evenDraws k).
Proof.
  split; [exact evenDraws_range|].
  eexists. eexists. split; [reflexivity|].
  apply (stall_alert_needs_a_slowdown evenDraws frozenClock plainTime
           evenDraws_range initialState _ _ eq_refl).
Defined.

(** ** The scenarios of the specification, run on the model *)

(** Scenario A: a vehicle at speed 0.1 and 25 degrees gets one warning that
    names its lane, and its flag goes up. *)
Example scenario_A :
  let v := Vehicle.mk "V-7" 1 40 0.1 Car "#3b82f6" 25 false in
  exists s' a,
    detectIncidents frozenClock plainTime [v] initialState
    = Some ([Vehicle.setDetected v], s')
    /\ aiInsights s' = [a]
    /\ AIInsight.type a = Warning
    /\ AIInsight.message a = "Slow/stopped car detected in Lane 2 at 40%"%string
    /\ incidentDetected s' = true.
Proof.
  cbv zeta. eexists. eexists. split; [reflexivity|].
  unfold pushInsight. cbn. repeat split.
Qed.

(** Scenario B: a vehicle at 32 degrees and speed 0.6 gets one critical
    alert that shows the temperature and the zone of its position. *)
Example scenario_B :
  exists s' a,
    detectIncidents frozenClock plainTime [hotCar] initialState
    = Some ([Vehicle.setDetected hotCar], s')
    /\ aiInsights s' = [a]
    /\ AIInsight.type a = Critical
    /\ AIInsight.message a
       = "Hot spot detected: car showing 32°C in Lane 1"%string
    /\ AIInsight.zone a = Some "CAM-01"%string.
Proof.
  eexists. eexists. split; [reflexivity|].
  unfold pushInsight. cbn. repeat split.
Qed.

(** Scenario C: a vehicle at 99.5 with speed 0.6 is gone after one motion
    update. *)
Example scenario_C :
  let v := Vehicle.mk "V-3" 0 99.5 0.6 Car "#3b82f6" 25 false in
  exists s',
    updateVehicles evenDraws frozenClock plainTime
      (with_vehicles [v] initialState)
    = Some (tt, s')
    /\ vehicles s' = []
    /\ vehicleCount s' = 0%Z.
Proof.
  cbv zeta. eexists. split; [vm_compute; reflexivity|]. split; reflexivity.
Qed.

(** Scenario D: six appends to the empty log keep the five newest, newest
    first. *)
Example scenario_D (A B C D E F : AIInsight.t) :
  fold_left (fun log a => pushInsight a log) [A; B; C; D; E; F] []
  = [F; E; D; C; B].
Proof. reflexivity. Qed.

(** Scenario E: a paused component ignores animation frames. *)
Example scenario_E (s : State) :
  isRunning s = false ->
  handleAll evenDraws frozenClock plainTime (frames [16; 33]) s = Some (tt, s).
Proof.
  intros H. cbn [frames map handleAll handle]. unfold bind.
  rewrite !(animate_stopped evenDraws frozenClock plainTime _ s H).
  reflexivity.
Qed.

(** ** The further properties at concrete inputs *)

Lemma firstFrameState_reachable :
  reachable evenDraws frozenClock plainTime firstFrameState.
Proof. exists [StartPauseClick; AnimationFrame 5000]. vm_compute. reflexivity. Defined.

Lemma firstAlertState_reachable :
  reachable spawnTickDraws frozenClock plainTime firstAlertState.
Proof. exists [StartPauseClick; AnimationFrame 5000]. vm_compute. reflexivity. Defined.

Lemma firstFrameState_vehicle :
  exists v, vehicles firstFrameState = [v].
Proof. eexists. vm_compute. reflexivity. Defined.

Lemma firstAlertState_alert :
  exists a, aiInsights firstAlertState = [a].
Proof. eexists. vm_compute. reflexivity. Defined.

(** X1 at the hot car, which is at position 10. *)
Lemma alert_zone_is_the_camera_that_shows_the_vehicle_witness :
  0 <= Vehicle.position hotCar
  /\ Vehicle.position hotCar < 100
  /\ exists z,
       In z cameraButtons
       /\ (forall z', isInActiveZone z' hotCar = true <-> z' = z)
       /\ getCameraZoneForPosition (Vehicle.position hotCar)
          = cameraButtonLabel z
       /\ exists idx cam,
            nth_error cameraZones idx = Some cam
            /\ indicatorLit z idx = true
            /\ CameraZone.id cam
               = getCameraZoneForPosition (Vehicle.position hotCar).
Proof.
  assert (H0 : 0 <= Vehicle.position hotCar) by (vm_compute; discriminate).
  assert (H1 : Vehicle.position hotCar < 100) by (vm_compute; reflexivity).
  split; [exact H0|]. split; [exact H1|].
  apply (alert_zone_is_the_camera_that_shows_the_vehicle hotCar H0 H1).
Defined.

(** X3 on the first render, with every draw at 1/2. *)
Lemma spawned_vehicle_lane_temperature_and_id_witness :
  unitRange evenDraws
  /\ exists v s',
       spawnVehicle evenDraws initialState = Some (v, s')
       /\ (0 <= Vehicle.lane v <= 2)%Z
       /\ 20 <= Vehicle.temperature v /\ Vehicle.temperature v <= 35
       /\ In (Vehicle.color v) colors
       /\ Vehicle.id v = ("V-" ++ showZ (vehicleIdCounter initialState))%string
       /\ vehicleIdCounter s' = (vehicleIdCounter initialState + 1)%Z.
Proof.
  split; [exact evenDraws_range|].
  apply (spawned_vehicle_lane_temperature_and_id evenDraws evenDraws_range
           initialState).
Defined.

(** X4 after the first frame. *)
Lemma vehicle_ids_are_distinct_witness :
  unitRange evenDraws
  /\ reachable evenDraws frozenClock plainTime firstFrameState
  /\ NoDup (map Vehicle.id (vehicles firstFrameState))
  /\ idsWithin 0 (vehicleIdCounter firstFrameState) (vehicles firstFrameState)
  /\ forall v, In v (vehicles firstFrameState) ->
       exists k, (0 <= k < vehicleIdCounter firstFrameState)%Z
                 /\ Vehicle.id v = ("V-" ++ showZ k)%string.
Proof.
  split; [exact evenDraws_range|].
  split; [exact firstFrameState_reachable|].
  apply (vehicle_ids_are_distinct evenDraws frozenClock plainTime
           evenDraws_range firstFrameState firstFrameState_reachable).
Defined.

(** X5 after the first frame. *)
Lemma vehicle_count_is_the_size_of_the_live_set_witness :
  unitRange evenDraws
  /\ reachable evenDraws frozenClock plainTime firstFrameState
  /\ vehicleCount firstFrameState
     = Z.of_nat (List.length (vehicles firstFrameState)).
Proof.
  split; [exact evenDraws_range|].
  split; [exact firstFrameState_reachable|].
  apply (vehicle_count_is_the_size_of_the_live_set evenDraws frozenClock
           plainTime evenDraws_range firstFrameState
           firstFrameState_reachable).
Defined.

(** X6 on the first render, where the clock is stopped. *)
Lemma frames_of_a_stopped_clock_change_nothing_witness :
  isRunning initialState = false
  /\ handleAll evenDraws frozenClock plainTime (frames [16; 33; 50])
       initialState
     = Some (tt, initialState).
Proof.
  split; [reflexivity|].
  apply (frames_of_a_stopped_clock_change_nothing evenDraws frozenClock
           plainTime initialState [16; 33; 50] eq_refl).
Defined.

(** X7 at the started component, for three frames. *)
Lemma elapsed_time_counts_frames_witness :
  unitRange evenDraws
  /\ isRunning (with_isRunning true initialState) = true
  /\ exists s',
       handleAll evenDraws frozenClock plainTime (frames [16; 33; 50])
         (with_isRunning true initialState)
       = Some (tt, s')
       /\ simulationTime s'
          = Nat.iter (List.length [16; 33; 50]) (fun prev => prev + 0.1)
              (simulationTime (with_isRunning true initialState))
       /\ isRunning s' = true.
Proof.
  split; [exact evenDraws_range|]. split; [reflexivity|].
  apply (elapsed_time_counts_frames evenDraws frozenClock plainTime
           evenDraws_range [16; 33; 50] (with_isRunning true initialState)
           eq_refl).
Defined.

(** X8 at the started component, for a frame at 5000 ms. *)
Lemma spawn_is_gated_by_the_timer_witness :
  unitRange evenDraws
  /\ isRunning (with_isRunning true initialState) = true
  /\ exists s' entered,
       animate evenDraws frozenClock plainTime 5000
         (with_isRunning true initialState)
       = Some (tt, s')
       /\ Forall2 advanced (filter staysIn entered) (vehicles s')
       /\ ((entered = vehicles (with_isRunning true initialState)
            /\ vehicleIdCounter s'
               = vehicleIdCounter (with_isRunning true initialState)
            /\ lastSpawnTime s'
               = lastSpawnTime (with_isRunning true initialState))
           \/ (2000 < 5000 - lastSpawnTime (with_isRunning true initialState)
               /\ vehicleIdCounter s'
                  = (vehicleIdCounter (with_isRunning true initialState) + 1)%Z
               /\ lastSpawnTime s' = 5000
               /\ exists v s1 v' rest,
                    spawnVehicle evenDraws
                      (with_randomCalls
                         (S (randomCalls (with_isRunning true initialState)))
                         (with_isRunning true initialState))
                    = Some (v, s1)
                    /\ entered
                       = vehicles (with_isRunning true initialState) ++ [v]
                    /\ vehicles s' = rest ++ [v']
                    /\ advanced v v'))
       /\ (5000 - lastSpawnTime (with_isRunning true initialState) <= 2000 ->
           entered = vehicles (with_isRunning true initialState))
       /\ (4000 < 5000 - lastSpawnTime (with_isRunning true initialState) ->
           List.length entered
           = S (List.length (vehicles (with_isRunning true initialState)))).
Proof.
  split; [exact evenDraws_range|]. split; [reflexivity|].
  apply (spawn_is_gated_by_the_timer evenDraws frozenClock plainTime
           evenDraws_range (with_isRunning true initialState) 5000 eq_refl).
Defined.

(** X12 after the first frame, for the next frame. *)
Lemma frame_keeps_the_attributes_of_a_vehicle_witness :
  unitRange evenDraws
  /\ isRunning firstFrameState = true
  /\ exists s' entered,
       animate evenDraws frozenClock plainTime 5016 firstFrameState
       = Some (tt, s')
       /\ enteredInFrame evenDraws 5016 firstFrameState entered
       /\ Forall2 keepsAttributes (filter staysIn entered) (vehicles s').
Proof.
  split; [exact evenDraws_range|]. split; [reflexivity|].
  apply (frame_keeps_the_attributes_of_a_vehicle evenDraws frozenClock
           plainTime evenDraws_range firstFrameState 5016 eq_refl).
Defined.

(** X13 at the vehicle of the state after the first frame. *)
Lemma live_vehicles_are_well_formed_witness :
  unitRange evenDraws
  /\ reachable evenDraws frozenClock plainTime firstFrameState
  /\ exists v,
       In v (vehicles firstFrameState)
       /\ (0 <= Vehicle.lane v <= 2)%Z
       /\ 0 <= Vehicle.position v /\ Vehicle.position v < 100
       /\ 0 <= Vehicle.speed v /\ Vehicle.speed v < 0.8
       /\ 20 <= Vehicle.temperature v /\ Vehicle.temperature v <= 35
       /\ (Vehicle.type v = Car \/ Vehicle.type v = Truck)
       /\ In (Vehicle.color v) colors.
Proof.
  split; [exact evenDraws_range|].
  split; [exact firstFrameState_reachable|].
  destruct firstFrameState_vehicle as [v Hv]. exists v.
  assert (Hin : In v (vehicles firstFrameState))
    by (rewrite Hv; left; reflexivity).
  split; [exact Hin|].
  apply (live_vehicles_are_well_formed evenDraws frozenClock plainTime
           evenDraws_range firstFrameState v firstFrameState_reachable Hin).
Defined.

(** X14 after the frame that logs the first stall alert. *)
Lemma vehicles_with_an_indicator_are_flagged_witness :
  reachable spawnTickDraws frozenClock plainTime firstAlertState
  /\ (forall v, In v (vehicles firstAlertState) ->
        speedIndicator v = true \/ hotIndicator v = true ->
        Vehicle.detected v = true)
  /\ detectIncidents frozenClock plainTime (vehicles firstAlertState)
       firstAlertState
     = Some (vehicles firstAlertState, firstAlertState).
Proof.
  split; [exact firstAlertState_reachable|].
  apply (vehicles_with_an_indicator_are_flagged spawnTickDraws frozenClock
           plainTime firstAlertState firstAlertState_reachable).
Defined.

(** X15 at the vehicle of the state after the first frame. *)
Lemma live_vehicles_are_drawn_inside_the_box_witness :
  unitRange evenDraws
  /\ reachable evenDraws frozenClock plainTime firstFrameState
  /\ exists v,
       In v (vehicles firstFrameState)
       /\ 10 <= leftPercent v /\ leftPercent v <= 76.66
       /\ 0 <= topPercent v /\ topPercent v < 100.
Proof.
  split; [exact evenDraws_range|].
  split; [exact firstFrameState_reachable|].
  destruct firstFrameState_vehicle as [v Hv]. exists v.
  assert (Hin : In v (vehicles firstFrameState))
    by (rewrite Hv; left; reflexivity).
  split; [exact Hin|].
  apply (live_vehicles_are_drawn_inside_the_box evenDraws frozenClock
           plainTime evenDraws_range firstFrameState v
           firstFrameState_reachable Hin).
Defined.

(** X16 at the alert of the state after the frame that logs the first
    stall alert. *)
Lemma logged_alerts_come_from_the_detector_witness :
  reachable spawnTickDraws frozenClock plainTime firstAlertState
  /\ exists a,
       In a (aiInsights firstAlertState)
       /\ (AIInsight.type a = Warning \/ AIInsight.type a = Critical)
       /\ insightBoxClass a <> "bg-blue-900/30 border-blue-500/50"%string
       /\ exists z, AIInsight.zone a = Some z
                    /\ In z (map CameraZone.id cameraZones).
Proof.
  split; [exact firstAlertState_reachable|].
  destruct firstAlertState_alert as [a Ha]. exists a.
  assert (Hin : In a (aiInsights firstAlertState))
    by (rewrite Ha; left; reflexivity).
  split; [exact Hin|].
  apply (logged_alerts_come_from_the_detector spawnTickDraws frozenClock
           plainTime firstAlertState a firstAlertState_reachable Hin).
Defined.

(** X17 for a frame at 5016 ms and the third camera, after the first
    frame. *)
Lemma camera_selection_commutes_with_the_simulation_witness :
  (forall z', AnimationFrame 5016 <> CameraClick z')
  /\ (handle evenDraws frozenClock plainTime (CameraClick 3) ;;
      handle evenDraws frozenClock plainTime (AnimationFrame 5016))
       firstFrameState
     = (handle evenDraws frozenClock plainTime (AnimationFrame 5016) ;;
        handle evenDraws frozenClock plainTime (CameraClick 3))
         firstFrameState
  /\ handle evenDraws frozenClock plainTime (AnimationFrame 5016)
       (with_activeCameraZone 3 firstFrameState)
     = onState (with_activeCameraZone 3)
         (handle evenDraws frozenClock plainTime (AnimationFrame 5016)
            firstFrameState).
Proof.
  assert (H : forall z', AnimationFrame 5016 <> CameraClick z')
    by (intros z'; discriminate).
  split; [exact H|].
  apply (camera_selection_commutes_with_the_simulation evenDraws frozenClock
           plainTime (AnimationFrame 5016) 3 firstFrameState H).
Defined.

(** X18 for a car at speed 0.6 through two ticks, the first of which draws a
    slowdown. *)
Lemma slowdowns_compound_witness :
  0 <= Vehicle.speed hotCar
  /\ exists v' s',
       vehicleTicks spawnTickDraws frozenClock plainTime 2 hotCar
         (with_randomCalls 6 initialState)
       = Some (v', s')
       /\ Vehicle.speed v'
          = Nat.iter
              (countSlowdowns spawnTickDraws
                 (randomCalls (with_randomCalls 6 initialState)) 2)
              (fun speed => speed * 0.3) (Vehicle.speed hotCar)
       /\ 0 <= Vehicle.speed v'
       /\ Vehicle.speed v' <= Vehicle.speed hotCar
       /\ Vehicle.position hotCar <= Vehicle.position v'.
Proof.
  assert (H0 : 0 <= Vehicle.speed hotCar) by (vm_compute; discriminate).
  split; [exact H0|].
  destruct (slowdowns_compound spawnTickDraws frozenClock plainTime 2 hotCar
              (with_randomCalls 6 initialState)) as (v' & s' & E & Hsp & H).
  exists v', s'. split; [exact E|]. split; [exact Hsp|]. exact (H H0).
Defined.

(** X19 after the first frame, for the next frame. *)
Lemma a_frame_moves_the_readings_by_a_bounded_step_witness :
  unitRange evenDraws
  /\ reachable evenDraws frozenClock plainTime firstFrameState
  /\ isRunning firstFrameState = true
  /\ exists s',
       animate evenDraws frozenClock plainTime 5016 firstFrameState
       = Some (tt, s')
       /\ (-1 <= airQuality s' - airQuality firstFrameState
           /\ airQuality s' - airQuality firstFrameState <= 1)
       /\ (-0.25 <= temperature s' - temperature firstFrameState
           /\ temperature s' - temperature firstFrameState <= 0.25)
       /\ (-0.5 <= visibility s' - visibility firstFrameState
           /\ visibility s' - visibility firstFrameState <= 0.5).
Proof.
  split; [exact evenDraws_range|].
  split; [exact firstFrameState_reachable|]. split; [reflexivity|].
  apply (a_frame_moves_the_readings_by_a_bounded_step evenDraws frozenClock
           plainTime evenDraws_range firstFrameState 5016
           firstFrameState_reachable eq_refl).
Defined.

(** X20 after the first frame. *)
Lemma ventilation_level_never_changes_witness :
  reachable evenDraws frozenClock plainTime firstFrameState
  /\ ventilationLevel firstFrameState = 60.
Proof.
  split; [exact firstFrameState_reachable|].
  apply (ventilation_level_never_changes evenDraws frozenClock plainTime
           firstFrameState firstFrameState_reachable).
Defined.

(** ** Where the doubles leave the exact arithmetic

    The expressions of [Binary64] evaluated at the draws and after the
    numbers of steps at which rounding shows. *)

Section Rounding.
Import PrimFloat.
Local Open Scope float_scope.

(** C9, as the spec words it.  The spec puts the speed of a truck in
    [0.3, 0.5).  At the largest draw below 1 the expression
    [0.3 + Math.random() * 0.2] of [spawnVehicle] rounds to 0.5 exactly: the
    draw is in [0,1) and the speed of the truck is not below 0.5. *)
Lemma truck_speed_reaches_the_upper_bound :
  (0 <=? Binary64.largestDraw) = true
  /\ (Binary64.largestDraw <? 1) = true
  /\ Binary64.spawnSpeed true Binary64.largestDraw = 0.5
  /\ (Binary64.spawnSpeed true Binary64.largestDraw <? 0.5) = false.
Proof.
  repeat split; vm_compute; reflexivity.
Qed.

(** C8, as the spec words it.  The spec calls the speed a positive number.
    Every slowdown of the motion update multiplies the speed by 0.3; after
    619 of them the speed of a vehicle is 0 exactly, from the smallest
    speed that [spawnVehicle] gives (a truck at draw 0) and from the largest
    (a car at the largest draw) alike, and a vehicle with that speed stays
    where it is. *)
Lemma slowed_speed_reaches_zero :
  Binary64.spawnSpeed true 0 = 0.3
  /\ Nat.iter 619 Binary64.slowedSpeed (Binary64.spawnSpeed true 0) = 0
  /\ Nat.iter 619 Binary64.slowedSpeed
       (Binary64.spawnSpeed false Binary64.largestDraw) = 0
  /\ (0 <? Nat.iter 619 Binary64.slowedSpeed (Binary64.spawnSpeed true 0))
     = false
  /\ Binary64.nextPosition 50
       (Nat.iter 619 Binary64.slowedSpeed (Binary64.spawnSpeed true 0))
     = 50.
Proof.
  repeat split; vm_compute; reflexivity.
Qed.

(** The speed of a car stays below 0.8 at the largest draw. *)
Lemma car_speed_stays_below_the_upper_bound :
  (Binary64.spawnSpeed false Binary64.largestDraw <? 0.8) = true.
Proof.
  vm_compute. reflexivity.
Qed.

(** The temperature [20 + Math.random() * 15] of a spawned vehicle rounds to
    35 at the largest draw and at the draw before it. *)
Lemma spawn_temperature_reaches_the_upper_bound :
  Binary64.spawnTemperature Binary64.largestDraw = 35
  /\ Binary64.spawnTemperature 0x1.ffffffffffffep-1 = 35.
Proof.
  split; vm_compute; reflexivity.
Qed.

(** The spawn threshold [2000 + Math.random() * 2000] rounds to 4000 at the
    largest draw: a gap of 4000 ms exactly does not pass it. *)
Lemma spawn_threshold_reaches_the_upper_bound :
  Binary64.spawnThreshold Binary64.largestDraw = 4000
  /\ (Binary64.spawnThreshold Binary64.largestDraw <? 4000) = false.
Proof.
  split; vm_compute; reflexivity.
Qed.

(** Three additions of 0.1 to the elapsed time do not give 0.3. *)
Lemma elapsed_time_after_three_frames :
  Nat.iter 3 Binary64.nextSimulationTime 0 = 0.30000000000000004
  /\ (Nat.iter 3 Binary64.nextSimulationTime 0 =? 0.3) = false.
Proof.
  split; vm_compute; reflexivity.
Qed.

End Rounding.
